(** * A shallow embedding of the Todo API (src/main.py)

    The service keeps one SQLite table, [todos], and serves five routes over
    it.  Every handler opens a connection through the context manager
    [get_db_connection], runs one to three SQL statements and returns a
    Pydantic model or raises [HTTPException].

    The embedding has four layers, in the order of the file:
    - the table and the five SQL statements of the source, as functions on a
      list of rows;
    - a small state-and-exception monad [sql] for code running inside a
      [with get_db_connection() as conn:] block; a call on the connection
      may raise [sqlite3.Error], which is decided by a fault schedule;
    - the context manager itself, which commits, or rolls back and re-raises,
      and closes the connection;
    - the request models with their validation, the handlers and the HTTP
      responses that the framework builds from their outcomes.

    Integers are modelled as [Z] and text as [string].  The table has no
    ceiling on its rowids, so that INSERT is total (on a real file an INSERT
    at the ceiling is an error of the driver, which belongs to the fault
    schedule); the driver refuses to bind an integer that does not fit
    SQLite's INTEGER type, see [fits_INTEGER].  A request body is a body
    whose fields, when present, have the declared types; see [json_body]. *)

From stdpp Require Import base decidable option list strings numbers sorting pretty.

Local Open Scope string_scope.
Local Open Scope list_scope.
Local Open Scope Z_scope.

(** ** The table

<<
  CREATE TABLE IF NOT EXISTS todos (
      todo_id INTEGER PRIMARY KEY AUTOINCREMENT,
      content TEXT NOT NULL,
      completed BOOLEAN NOT NULL DEFAULT 0 )
>>
    A row holds the three columns; [completed] is stored as an integer. *)

Record Row := mkRow {
  col_todo_id : Z;
  col_content : string;
  col_completed : Z
}.

(** The database file: the rows of [todos], and the entry that SQLite keeps
    for an AUTOINCREMENT table in [sqlite_sequence] (the largest rowid ever
    handed out for the table). *)
Record database := mkDatabase {
  todos : list Row;
  sqlite_sequence : Z
}.

Definition rowids (rows : list Row) : list Z := col_todo_id <$> rows.

Definition max_rowid (rows : list Row) : Z := foldr Z.max 0 (rowids rows).

(** AUTOINCREMENT: the new rowid is one more than the larger of the largest
    rowid in the table and the [sqlite_sequence] entry. *)
Definition new_rowid (d : database) : Z :=
  Z.max (max_rowid (todos d)) (sqlite_sequence d) + 1.

(** *** The statements *)

(** [SELECT * FROM todos ORDER BY todo_id] *)
Definition rowid_le (r1 r2 : Row) : Prop := col_todo_id r1 ≤ col_todo_id r2.

Global Instance rowid_le_dec : RelDecision rowid_le.
Proof. intros r1 r2; unfold rowid_le; apply _. Defined.

Definition select_all_order_by_todo_id (d : database) : list Row :=
  merge_sort rowid_le (todos d).

(** [SELECT * FROM todos WHERE todo_id = ?] *)
Definition select_where_todo_id (k : Z) (d : database) : list Row :=
  filter (λ r, col_todo_id r = k) (todos d).

(** [INSERT INTO todos (content, completed) VALUES (?, ?)]; the result is
    [cursor.lastrowid] and the database after the statement. *)
Definition insert_into_todos (c : string) (b : Z) (d : database)
  : Z * database :=
  let k := new_rowid d in
  (k, {| todos := todos d ++ [mkRow k c b]; sqlite_sequence := k |}).

(** One [column = ?] of an UPDATE with its parameter. *)
Inductive assignment :=
  | SetContent (c : string)
  | SetCompleted (b : Z).

Definition assign (r : Row) (a : assignment) : Row :=
  match a with
  | SetContent c => mkRow (col_todo_id r) c (col_completed r)
  | SetCompleted b => mkRow (col_todo_id r) (col_content r) b
  end.

(** [UPDATE todos SET ... WHERE todo_id = ?] *)
Definition update_todos_set (updates : list assignment) (k : Z) (d : database)
  : database :=
  {| todos := (λ r, if decide (col_todo_id r = k)
                    then foldl assign r updates else r) <$> todos d;
     sqlite_sequence := sqlite_sequence d |}.

(** [DELETE FROM todos WHERE todo_id = ?]; the result is [cursor.rowcount]
    and the database after the statement. *)
Definition delete_from_todos (k : Z) (d : database) : nat * database :=
  let kept := filter (λ r, col_todo_id r ≠ k) (todos d) in
  ((length (todos d) - length kept)%nat,
   {| todos := kept; sqlite_sequence := sqlite_sequence d |}).

(** ** Exceptions and the connection monad *)

Inductive exn :=
  | HTTPException (status_code : Z) (detail : string)
  | sqlite3_Error
  | OverflowError
  | TypeError.

Inductive outcome (A : Type) :=
  | Return (a : A)
  | Raise (e : exn).
Arguments Return {A} a.
Arguments Raise {A} e.

(** An open connection: the database as the running transaction sees it and
    the number of calls made on the connection so far. *)
Record connection := mkConn {
  conn_db : database;
  conn_calls : nat
}.

(** A fault schedule tells, for each call on a connection, whether the
    driver raises [sqlite3.Error] at that call. *)
Definition faults := nat → bool.

Definition no_faults : faults := λ _, false.
Definition fail_at (n : nat) : faults := λ k, bool_decide (k = n).

Definition sql (A : Type) : Type := faults → connection → outcome A * connection.

Definition sql_ret {A} (a : A) : sql A := λ _ c, (Return a, c).

Definition sql_raise {A} (e : exn) : sql A := λ _ c, (Raise e, c).

Definition sql_bind {A B} (m : sql A) (k : A → sql B) : sql B := λ fl c,
  match m fl c with
  | (Return a, c') => k a fl c'
  | (Raise e, c') => (Raise e, c')
  end.

Notation "'let*' x ':=' m 'in' k" := (sql_bind m (λ x, k))
  (at level 10, x name, m at level 100, k at level 200, only parsing).

(** [conn.execute(...)]: the statement runs unless the schedule makes the
    call raise; a statement that raises changes nothing. *)
Definition execute {A} (stmt : database → A * database) : sql A := λ fl c,
  if fl (conn_calls c)
  then (Raise sqlite3_Error, mkConn (conn_db c) (S (conn_calls c)))
  else let '(a, d) := stmt (conn_db c) in
       (Return a, mkConn d (S (conn_calls c))).

Definition query {A} (q : database → A) : database → A * database :=
  λ d, (q d, d).

(** The signed 64-bit range of SQLite's INTEGER type. *)
Definition int64 (k : Z) : Prop := -2 ^ 63 ≤ k < 2 ^ 63.

(** The integers that the driver can bind as a parameter: those of the
    signed 64-bit range.  Since the table of this model has no ceiling on
    its rowids, a rowid that the table holds counts as fitting too; on a
    file whose rowids are 64-bit integers, as those of every real file are,
    this is the signed 64-bit range and nothing else. *)
Definition fits_INTEGER (d : database) (k : Z) : Prop :=
  int64 k ∨ k ∈ rowids (todos d).

Global Instance int64_dec k : Decision (int64 k).
Proof. unfold int64. apply _. Defined.

Global Instance fits_INTEGER_dec d k : Decision (fits_INTEGER d k).
Proof. unfold fits_INTEGER. apply _. Defined.

(** [conn.execute(..., params)] with the integer [k] among the parameters:
    as [execute], but binding an integer that does not fit raises
    [OverflowError] before the statement runs. *)
Definition execute_bound {A} (k : Z) (stmt : database → A * database) : sql A :=
  λ fl c,
  if fl (conn_calls c)
  then (Raise sqlite3_Error, mkConn (conn_db c) (S (conn_calls c)))
  else if decide (fits_INTEGER (conn_db c) k)
  then let '(a, d) := stmt (conn_db c) in
       (Return a, mkConn d (S (conn_calls c)))
  else (Raise OverflowError, mkConn (conn_db c) (S (conn_calls c))).

(** [cursor.fetchone()] *)
Definition fetchone (rows : list Row) : option Row := head rows.

(** ** The context manager [get_db_connection] *)

Inductive event := Connect | Commit | Rollback | Close.

(** The database file on disk and what has been done with connections so
    far. *)
Record world := mkWorld {
  file : database;
  log : list event
}.

Definition connect (w : world) : connection := mkConn (file w) 0.

(** The world after a connection was opened, its transaction committed with
    [d] as the new contents of the file, and closed. *)
Definition committed (d : database) (w : world) : world :=
  mkWorld d (log w ++ [Connect; Commit; Close]).

(** The world after a connection was opened, its transaction rolled back,
    and closed. *)
Definition rolled_back (w : world) : world :=
  mkWorld (file w) (log w ++ [Connect; Rollback; Close]).

(**
<<
    conn = sqlite3.connect(DATABASE_FILE)
    try:
        yield conn
        conn.commit()
    except Exception:
        conn.rollback()
        raise
    finally:
        conn.close()
>> *)
Definition get_db_connection {A} (body : sql A) (fl : faults) (w : world)
  : outcome A * world :=
  match body fl (connect w) with
  | (Return a, c) =>
      if fl (conn_calls c)
      then (Raise sqlite3_Error, rolled_back w)
      else (Return a, committed (conn_db c) w)
  | (Raise e, _) => (Raise e, rolled_back w)
  end.

(** ** Pydantic models *)

Record TodoCreate := mkTodoCreate {
  create_content : string;
  create_completed : bool
}.

Record TodoUpdate := mkTodoUpdate {
  update_content : option string;
  update_completed : option bool
}.

Record Todo := mkTodo {
  todo_id : Z;
  content : string;
  completed : bool
}.

(** A request body whose fields, when present, have the declared types:
    [content] a string and [completed] a boolean; each is present or not.
    A body that is missing, is not an object, or holds a field of another
    type (a number for [content], [null] for the [completed] of a POST) is
    answered 422 by the framework as well; such bodies have no image
    here. *)
Record json_body := mkBody {
  body_content : option string;
  body_completed : option bool
}.

Inductive validation_error :=
  | Missing (field : string)
  | StringTooShort (field : string) (min_length : nat).

Definition has_min_length (n : nat) (s : string) : bool :=
  bool_decide (n ≤ String.length s)%nat.

(** [content: str = Field(..., min_length=1)];
    [completed: bool = Field(default=False)] *)
Definition validate_TodoCreate (b : json_body) : validation_error + TodoCreate :=
  match body_content b with
  | None => inl (Missing "content")
  | Some c =>
      if has_min_length 1 c
      then inr (mkTodoCreate c (default false (body_completed b)))
      else inl (StringTooShort "content" 1)
  end.

(** [content: Optional[str] = Field(None, min_length=1)];
    [completed: Optional[bool] = Field(None)] *)
Definition validate_TodoUpdate (b : json_body) : validation_error + TodoUpdate :=
  match body_content b with
  | None => inr (mkTodoUpdate None (body_completed b))
  | Some c =>
      if has_min_length 1 c
      then inr (mkTodoUpdate (Some c) (body_completed b))
      else inl (StringTooShort "content" 1)
  end.

Definition row_to_todo (row : Row) : Todo :=
  {| todo_id := col_todo_id row;
     content := col_content row;
     completed := bool_decide (col_completed row ≠ 0) |}.

(** [row = cursor.fetchone(); return row_to_todo(row)]: subscripting [None]
    raises [TypeError]. *)
Definition return_row_to_todo (row : option Row) : sql Todo :=
  match row with
  | Some r => sql_ret (row_to_todo r)
  | None => sql_raise TypeError
  end.

(** ** Handlers *)

Definition HTTP_200_OK : Z := 200.
Definition HTTP_201_CREATED : Z := 201.
Definition HTTP_204_NO_CONTENT : Z := 204.
Definition HTTP_404_NOT_FOUND : Z := 404.

(** [f"Todo with id {todo_id} not found"] *)
Definition not_found_detail (k : Z) : string :=
  "Todo with id " +:+ pretty k +:+ " not found".

Definition not_found {A} (k : Z) : sql A :=
  sql_raise (HTTPException HTTP_404_NOT_FOUND (not_found_detail k)).

Definition handler (A : Type) : Type := faults → world → outcome A * world.

Definition get_all_todos : handler (list Todo) :=
  get_db_connection (
    let* rows := execute (query select_all_order_by_todo_id) in
    sql_ret (row_to_todo <$> rows)).

Definition get_todo (k : Z) : handler Todo :=
  get_db_connection (
    let* cursor := execute_bound k (query (select_where_todo_id k)) in
    match fetchone cursor with
    | None => not_found k
    | Some row => sql_ret (row_to_todo row)
    end).

Definition create_todo (todo : TodoCreate) : handler Todo :=
  get_db_connection (
    let* lastrowid :=
      execute (insert_into_todos (create_content todo)
                                 (Z.b2z (create_completed todo))) in
    let* cursor :=
      execute_bound lastrowid (query (select_where_todo_id lastrowid)) in
    return_row_to_todo (fetchone cursor)).

(** The [updates] and [params] lists that [update_todo] builds from the
    fields that are not [None]. *)
Definition set_clauses (todo_update : TodoUpdate) : list assignment :=
  let updates : list assignment := [] in
  let updates :=
    match update_content todo_update with
    | Some c => updates ++ [SetContent c]
    | None => updates
    end in
  let updates :=
    match update_completed todo_update with
    | Some b => updates ++ [SetCompleted (Z.b2z b)]
    | None => updates
    end in
  updates.

Definition update_todo (k : Z) (todo_update : TodoUpdate) : handler Todo :=
  get_db_connection (
    let* cursor := execute_bound k (query (select_where_todo_id k)) in
    match fetchone cursor with
    | None => not_found k
    | Some _ =>
        let updates := set_clauses todo_update in
        let* _ :=
          match updates with
          | [] => sql_ret ()
          | _ :: _ =>
              execute_bound k (λ d, ((), update_todos_set updates k d))
          end in
        let* cursor := execute_bound k (query (select_where_todo_id k)) in
        return_row_to_todo (fetchone cursor)
    end).

Definition delete_todo (k : Z) : handler () :=
  get_db_connection (
    let* rowcount := execute_bound k (delete_from_todos k) in
    if decide (rowcount = 0%nat) then not_found k else sql_ret ()).

(** ** Routes and responses *)

Definition HTTP_422_UNPROCESSABLE_ENTITY : Z := 422.
Definition HTTP_500_INTERNAL_SERVER_ERROR : Z := 500.

Inductive payload :=
  | NoBody
  | JsonTodo (t : Todo)
  | JsonTodos (l : list Todo)
  | JsonDetail (detail : string)
  | JsonValidationError (e : validation_error)
  | InternalServerError.

Record response := mkResponse {
  status : Z;
  sent : payload
}.

(** What the framework sends for the outcome of a handler registered with
    [status_code=ok]: the encoded result, the status and detail of an
    [HTTPException], or 500 for any other exception. *)
Definition respond {A} (ok : Z) (enc : A → payload) (o : outcome A) : response :=
  match o with
  | Return a => mkResponse ok (enc a)
  | Raise (HTTPException code detail) => mkResponse code (JsonDetail detail)
  | Raise _ => mkResponse HTTP_500_INTERNAL_SERVER_ERROR InternalServerError
  end.

(** A body that fails validation is answered before the handler is called. *)
Definition unprocessable (e : validation_error) : response :=
  mkResponse HTTP_422_UNPROCESSABLE_ENTITY (JsonValidationError e).

Inductive request :=
  | GET_todos
  | GET_todo (k : Z)
  | POST_todos (b : json_body)
  | PUT_todo (k : Z) (b : json_body)
  | DELETE_todo (k : Z).

Definition via {A} (ok : Z) (enc : A → payload) (h : handler A)
  (fl : faults) (w : world) : response * world :=
  let '(o, w') := h fl w in (respond ok enc o, w').

Definition serve (req : request) (fl : faults) (w : world) : response * world :=
  match req with
  | GET_todos => via HTTP_200_OK JsonTodos get_all_todos fl w
  | GET_todo k => via HTTP_200_OK JsonTodo (get_todo k) fl w
  | POST_todos b =>
      match validate_TodoCreate b with
      | inl e => (unprocessable e, w)
      | inr todo => via HTTP_201_CREATED JsonTodo (create_todo todo) fl w
      end
  | PUT_todo k b =>
      match validate_TodoUpdate b with
      | inl e => (unprocessable e, w)
      | inr todo_update =>
          via HTTP_200_OK JsonTodo (update_todo k todo_update) fl w
      end
  | DELETE_todo k => via HTTP_204_NO_CONTENT (λ _, NoBody) (delete_todo k) fl w
  end.

(** [CREATE TABLE IF NOT EXISTS todos (...)]: a table that exists is left as
    it is.  A file without the table is represented as a file with an empty
    one; the two differ only for a request served before startup, which the
    framework excludes. *)
Definition create_table_if_not_exists (d : database) : () * database :=
  ((), d).

Definition init_database : handler () :=
  get_db_connection (execute create_table_if_not_exists).

(** A new file, and the service after [startup_event] on it. *)
Definition new_file : world := mkWorld (mkDatabase [] 0) [].

Definition startup : world := (init_database no_faults new_file).2.

(** A run of requests, each with the fault schedule of its connection; the
    result is the responses in order and the final state. *)
Fixpoint serve_all (reqs : list (request * faults)) (w : world)
  : list response * world :=
  match reqs with
  | [] => ([], w)
  | (req, fl) :: reqs =>
      let '(r, w1) := serve req fl w in
      let '(rs, w2) := serve_all reqs w1 in
      (r :: rs, w2)
  end.

(** The invariant of the table: rowids are distinct, positive and at most
    the [sqlite_sequence] entry, and no content is empty. *)
Definition well_formed (d : database) : Prop :=
  NoDup (rowids (todos d)) ∧
  Forall (λ r, 0 < col_todo_id r ≤ sqlite_sequence d ∧ col_content r ≠ "")
         (todos d).

(** The id of the record that a response reports as created, and the ids
    reported by a list of responses, in order. *)
Definition created_id (r : response) : option Z :=
  match sent r with
  | JsonTodo t =>
      if decide (status r = HTTP_201_CREATED) then Some (todo_id t) else None
  | _ => None
  end.

Definition created_ids (rs : list response) : list Z := omap created_id rs.

(** A handler that, under any fault schedule, either does what it does
    without faults or raises [sqlite3.Error] with its transaction rolled
    back. *)
Definition aborts_or_runs {A} (h : handler A) : Prop :=
  ∀ fl w, h fl w = h no_faults w ∨ h fl w = (Raise sqlite3_Error, rolled_back w).

(** What serving one request can do to the file, and the rowid it reports
    as created: nothing, or one of the three writing statements with
    parameters that passed validation. *)
Inductive transition (d : database) : option Z → database → Prop :=
  | transition_none : transition d None d
  | transition_insert c b :
      c ≠ "" →
      transition d (Some (new_rowid d)) (insert_into_todos c b d).2
  | transition_update u k :
      update_content u ≠ Some "" →
      transition d None (update_todos_set (set_clauses u) k d)
  | transition_delete k :
      transition d None (delete_from_todos k d).2.

Global Instance Row_eq_dec : EqDecision Row.
Proof. solve_decision. Defined.

(** The table with row [r] replaced by [r']. *)
Definition replace_row (r r' : Row) (rows : list Row) : list Row :=
  (λ x, if decide (x = r) then r' else x) <$> rows.

(** Two sample states: the service after one and after two records were
    created. *)
Definition one_todo : world :=
  (serve (POST_todos (mkBody (Some "buy milk") None)) no_faults startup).2.

Definition two_todos : world :=
  (serve (POST_todos (mkBody (Some "walk the dog") (Some true)))
         no_faults one_todo).2.

(** The first row of the sample states. *)
Definition milk : Row := mkRow 1 "buy milk" 0.

(** What a handler raises for an id that no row has: 404 when the SELECT or
    DELETE ran, [OverflowError] when the id could not be bound. *)
Definition absent_exn (k : Z) : exn :=
  if decide (int64 k)
  then HTTPException HTTP_404_NOT_FOUND (not_found_detail k)
  else OverflowError.

(** * Properties *)

(** ** The statements *)

Section statements.
Implicit Types (d : database) (r : Row) (k : Z) (rows : list Row).

Lemma max_rowid_nonneg rows : 0 ≤ max_rowid rows.
Proof. unfold max_rowid. induction (rowids rows); simpl; lia. Qed.

Lemma max_rowid_ge rows r : r ∈ rows → col_todo_id r ≤ max_rowid rows.
Proof.
  unfold max_rowid, rowids.
  induction 1 as [r rows|r r' rows _ IH]; rewrite fmap_cons; simpl.
  - lia.
  - lia.
Qed.

Lemma new_rowid_positive d : 0 < new_rowid d.
Proof. unfold new_rowid. pose proof (max_rowid_nonneg (todos d)). lia. Qed.

Lemma new_rowid_above_sequence d : sqlite_sequence d < new_rowid d.
Proof. unfold new_rowid. lia. Qed.

Lemma new_rowid_above_rows d r : r ∈ todos d → col_todo_id r < new_rowid d.
Proof. intros Hr%max_rowid_ge. unfold new_rowid. lia. Qed.

Lemma new_rowid_fresh d : new_rowid d ∉ rowids (todos d).
Proof.
  unfold rowids. intros (r & Hk & Hr%new_rowid_above_rows)%list_elem_of_fmap.
  lia.
Qed.

Lemma select_absent k d :
  k ∉ rowids (todos d) → select_where_todo_id k d = [].
Proof.
  unfold select_where_todo_id, rowids. intros Hk.
  induction (todos d) as [|r rows IH]; [done|].
  rewrite fmap_cons, not_elem_of_cons in Hk. destruct Hk as [Hne Hk].
  rewrite filter_cons_False by congruence. auto.
Qed.

Lemma select_present k d :
  k ∈ rowids (todos d) →
  ∃ r, fetchone (select_where_todo_id k d) = Some r ∧
       r ∈ todos d ∧ col_todo_id r = k.
Proof.
  unfold select_where_todo_id, rowids, fetchone.
  induction (todos d) as [|r rows IH]; [by intros ?%elem_of_nil|].
  rewrite fmap_cons. intros Hk.
  destruct (decide (col_todo_id r = k)) as [Heq|Hne].
  - exists r. rewrite filter_cons_True by done. split_and!; [done|left|done].
  - rewrite filter_cons_False by done.
    apply elem_of_cons in Hk as [Hk|Hk]; [congruence|].
    destruct (IH Hk) as (r' & ? & ? & ?). exists r'. split_and!; [done|by right|done].
Qed.

Lemma select_unique r d :
  NoDup (rowids (todos d)) → r ∈ todos d →
  select_where_todo_id (col_todo_id r) d = [r].
Proof.
  unfold select_where_todo_id, rowids.
  induction (todos d) as [|r' rows IH]; [by intros _ ?%elem_of_nil|].
  rewrite fmap_cons, NoDup_cons. intros [Hnotin Hnd] Hr.
  apply elem_of_cons in Hr as [->|Hr].
  - rewrite filter_cons_True by done. f_equal.
    apply (select_absent _ (mkDatabase rows 0)), Hnotin.
  - rewrite filter_cons_False; [by apply IH|].
    intros Heq. apply Hnotin. rewrite Heq. by apply list_elem_of_fmap_2.
Qed.

Lemma select_elem k d r :
  r ∈ select_where_todo_id k d ↔ r ∈ todos d ∧ col_todo_id r = k.
Proof. unfold select_where_todo_id. rewrite list_elem_of_filter. tauto. Qed.

Lemma select_after_insert c b d :
  select_where_todo_id (new_rowid d) (insert_into_todos c b d).2
  = [mkRow (new_rowid d) c b].
Proof.
  unfold select_where_todo_id; simpl.
  rewrite filter_app, filter_cons_True, filter_nil by done.
  change (filter _ (todos d)) with (select_where_todo_id (new_rowid d) d).
  by rewrite select_absent by apply new_rowid_fresh.
Qed.

Lemma rowids_update updates k d :
  rowids (todos (update_todos_set updates k d)) = rowids (todos d).
Proof.
  unfold rowids; simpl. rewrite <- list_fmap_compose.
  apply list_fmap_ext; intros _ r _; simpl.
  case_decide; [|done]. clear. revert r.
  induction updates as [|a updates IH]; intros r; [done|].
  simpl. rewrite IH. by destruct a.
Qed.

Lemma rowids_delete k d :
  rowids (todos (delete_from_todos k d).2) = filter (λ j, j ≠ k) (rowids (todos d)).
Proof.
  unfold rowids; simpl. induction (todos d) as [|r rows IH]; [done|].
  rewrite fmap_cons. destruct (decide (col_todo_id r = k)).
  - rewrite !filter_cons_False by tauto. done.
  - rewrite !filter_cons_True by done. rewrite fmap_cons. by f_equal.
Qed.

Lemma rowcount_zero k d :
  (delete_from_todos k d).1 = 0%nat ↔ k ∉ rowids (todos d).
Proof.
  simpl. unfold rowids. induction (todos d) as [|r rows IH]; simpl.
  - split; [intros _ ?%elem_of_nil; done|done].
  - pose proof (length_filter (λ r, col_todo_id r ≠ k) rows).
    rewrite not_elem_of_cons. destruct (decide (col_todo_id r = k)).
    + rewrite filter_cons_False by tauto. split; [lia|intros []; congruence].
    + rewrite filter_cons_True by done. simpl. rewrite <- IH.
      split; [intros; split; [congruence|lia]|intros []; lia].
Qed.
End statements.

(** ** UPDATE and the other statements *)

Section update_statement.
Implicit Types (d : database) (r : Row) (k : Z) (updates : list assignment).

Lemma update_nil k d : update_todos_set [] k d = d.
Proof.
  destruct d as [rows s]. unfold update_todos_set; simpl. f_equal.
  rewrite <- (list_fmap_id rows) at 2.
  apply list_fmap_ext; intros _ r _. by case_decide.
Qed.

Lemma rowid_assigned updates r :
  col_todo_id (foldl assign r updates) = col_todo_id r.
Proof.
  revert r. induction updates as [|a updates IH]; intros r; [done|].
  simpl. rewrite IH. by destruct a.
Qed.

Lemma select_update_same updates k d :
  select_where_todo_id k (update_todos_set updates k d)
  = (λ r, foldl assign r updates) <$> select_where_todo_id k d.
Proof.
  unfold select_where_todo_id; simpl.
  induction (todos d) as [|r rows IH]; [done|].
  rewrite fmap_cons, !filter_cons, IH.
  destruct (decide (col_todo_id r = k)) as [Heq|Hne].
  - rewrite decide_True by (by rewrite rowid_assigned). done.
  - by rewrite decide_False.
Qed.

Lemma select_update_other updates j k d :
  j ≠ k →
  select_where_todo_id j (update_todos_set updates k d)
  = select_where_todo_id j d.
Proof.
  intros Hne. unfold select_where_todo_id; simpl.
  induction (todos d) as [|r rows IH]; [done|].
  rewrite fmap_cons, !filter_cons, IH.
  destruct (decide (col_todo_id r = k)) as [Heq|Hk]; [|done].
  rewrite !decide_False; [done|congruence|].
  rewrite rowid_assigned. congruence.
Qed.

Lemma others_update updates k d :
  filter (λ r, col_todo_id r ≠ k) (todos (update_todos_set updates k d))
  = filter (λ r, col_todo_id r ≠ k) (todos d).
Proof.
  simpl. induction (todos d) as [|r rows IH]; [done|].
  rewrite fmap_cons, !filter_cons, IH.
  destruct (decide (col_todo_id r = k)) as [Heq|Hk]; [|done].
  rewrite !decide_False; [done|tauto|].
  rewrite rowid_assigned. tauto.
Qed.

Lemma contents_update_completed b k d :
  col_content <$> todos (update_todos_set [SetCompleted b] k d)
  = col_content <$> todos d.
Proof.
  simpl. rewrite <- list_fmap_compose.
  apply list_fmap_ext; intros _ r _; simpl. by case_decide.
Qed.

Lemma completed_update_content c k d :
  col_completed <$> todos (update_todos_set [SetContent c] k d)
  = col_completed <$> todos d.
Proof.
  simpl. rewrite <- list_fmap_compose.
  apply list_fmap_ext; intros _ r _; simpl. by case_decide.
Qed.

Lemma others_insert c b k d :
  k ≠ new_rowid d →
  select_where_todo_id k (insert_into_todos c b d).2
  = select_where_todo_id k d.
Proof.
  intros Hne. unfold select_where_todo_id; simpl.
  rewrite filter_app, filter_cons, filter_nil; simpl.
  rewrite decide_False by congruence. apply app_nil_r.
Qed.

Lemma select_after_delete k d :
  select_where_todo_id k (delete_from_todos k d).2 = [].
Proof.
  apply select_absent. rewrite rowids_delete.
  intros [Hk _]%list_elem_of_filter. by apply Hk.
Qed.

Lemma b2z_truth (b : bool) : bool_decide (Z.b2z b ≠ 0) = b.
Proof. by destruct b. Qed.
End update_statement.

(** ** The handlers when no call on the connection fails *)

Section runs.
Implicit Types (w : world) (d : database) (k : Z) (r : Row).

Lemma fetchone_found k d r :
  fetchone (select_where_todo_id k d) = Some r →
  r ∈ todos d ∧ col_todo_id r = k.
Proof.
  intros Hr. apply (select_elem k). unfold fetchone in Hr.
  destruct (select_where_todo_id k d); simplify_eq/=. left.
Qed.

Lemma fetchone_found_fits k d r :
  fetchone (select_where_todo_id k d) = Some r → fits_INTEGER d k.
Proof.
  intros [Hr <-]%fetchone_found. right. by apply list_elem_of_fmap_2.
Qed.

Lemma fetchone_missing k d :
  fetchone (select_where_todo_id k d) = None → k ∉ rowids (todos d).
Proof.
  intros Hnone Hk. apply select_present in Hk as (r & Hr & _). congruence.
Qed.

Lemma fetchone_missing_fits k d :
  fetchone (select_where_todo_id k d) = None →
  fits_INTEGER d k ↔ int64 k.
Proof.
  intros Hk%fetchone_missing. unfold fits_INTEGER. tauto.
Qed.

Lemma fits_INTEGER_real d k :
  Forall int64 (rowids (todos d)) → fits_INTEGER d k ↔ int64 k.
Proof.
  intros Hreal. unfold fits_INTEGER. split; [|by left].
  intros [?|Hk]; [done|]. by apply (proj1 (Forall_forall _ _) Hreal).
Qed.

Lemma bind_execute {A B} (stmt : database → A * database) (f : A → sql B) c :
  sql_bind (execute stmt) f no_faults c
  = f (stmt (conn_db c)).1 no_faults
      (mkConn (stmt (conn_db c)).2 (S (conn_calls c))).
Proof. unfold sql_bind, execute; simpl. by destruct (stmt (conn_db c)). Qed.

Lemma bind_execute_bound {A B} k (stmt : database → A * database)
    (f : A → sql B) c :
  fits_INTEGER (conn_db c) k →
  sql_bind (execute_bound k stmt) f no_faults c
  = f (stmt (conn_db c)).1 no_faults
      (mkConn (stmt (conn_db c)).2 (S (conn_calls c))).
Proof.
  intros Hfits. unfold sql_bind, execute_bound; simpl.
  rewrite decide_True by done. by destruct (stmt (conn_db c)).
Qed.

Lemma bind_execute_overflow {A B} k (stmt : database → A * database)
    (f : A → sql B) c :
  ¬ fits_INTEGER (conn_db c) k →
  sql_bind (execute_bound k stmt) f no_faults c
  = (Raise OverflowError, mkConn (conn_db c) (S (conn_calls c))).
Proof.
  intros Hfits. unfold sql_bind, execute_bound; simpl.
  by rewrite decide_False.
Qed.

Lemma get_all_todos_run w :
  get_all_todos no_faults w
  = (Return (row_to_todo <$> select_all_order_by_todo_id (file w)),
     committed (file w) w).
Proof. reflexivity. Qed.

Lemma get_todo_run k w :
  get_todo k no_faults w
  = match fetchone (select_where_todo_id k (file w)) with
    | Some r => (Return (row_to_todo r), committed (file w) w)
    | None => (Raise (absent_exn k), rolled_back w)
    end.
Proof.
  unfold get_todo, get_db_connection.
  destruct (fetchone (select_where_todo_id k (file w))) as [r|] eqn:Hr.
  - rewrite bind_execute_bound by (by eapply fetchone_found_fits).
    cbn. by rewrite Hr.
  - unfold absent_exn. apply fetchone_missing_fits in Hr as Hfits.
    destruct (decide (int64 k)) as [Hk|Hk].
    + rewrite bind_execute_bound by (by apply Hfits). cbn. by rewrite Hr.
    + by rewrite bind_execute_overflow by (by rewrite Hfits).
Qed.

Lemma create_todo_run todo w :
  create_todo todo no_faults w
  = (Return (mkTodo (new_rowid (file w)) (create_content todo)
                    (create_completed todo)),
     committed (insert_into_todos (create_content todo)
                  (Z.b2z (create_completed todo)) (file w)).2 w).
Proof.
  unfold create_todo, get_db_connection.
  rewrite bind_execute. cbn [fst snd connect conn_db conn_calls].
  change (insert_into_todos ?c ?b ?d).1 with (new_rowid d).
  rewrite bind_execute_bound.
  - cbn [query fst snd conn_db]. rewrite select_after_insert. cbn.
    unfold row_to_todo; cbn. by rewrite b2z_truth.
  - right. simpl. unfold rowids. rewrite fmap_app.
    apply elem_of_app. right. simpl. left.
Qed.

Lemma update_todo_missing k u w :
  fetchone (select_where_todo_id k (file w)) = None →
  update_todo k u no_faults w = (Raise (absent_exn k), rolled_back w).
Proof.
  intros Hr. unfold update_todo, get_db_connection.
  unfold absent_exn. apply fetchone_missing_fits in Hr as Hfits.
  destruct (decide (int64 k)) as [Hk|Hk].
  - rewrite bind_execute_bound by (by apply Hfits). cbn. by rewrite Hr.
  - by rewrite bind_execute_overflow by (by rewrite Hfits).
Qed.

Lemma update_todo_found k u w r :
  fetchone (select_where_todo_id k (file w)) = Some r →
  update_todo k u no_faults w
  = (Return (row_to_todo (foldl assign r (set_clauses u))),
     committed (update_todos_set (set_clauses u) k (file w)) w).
Proof.
  intros Hsome.
  assert (fetchone (select_where_todo_id k
            (update_todos_set (set_clauses u) k (file w)))
          = Some (foldl assign r (set_clauses u))) as Hafter.
  { rewrite select_update_same. unfold fetchone in *.
    destruct (select_where_todo_id k (file w)); by simplify_eq/=. }
  pose proof (fetchone_found_fits _ _ _ Hsome) as Hfits.
  pose proof (fetchone_found_fits _ _ _ Hafter) as Hfits'.
  unfold update_todo, get_db_connection.
  rewrite bind_execute_bound by done.
  cbn [query fst snd connect conn_db conn_calls]. rewrite Hsome.
  destruct (set_clauses u) as [|a updates] eqn:Hupd.
  - rewrite update_nil in *. unfold sql_bind at 1, sql_ret.
    rewrite bind_execute_bound by done.
    cbn [query fst snd conn_db conn_calls]. by rewrite Hafter.
  - rewrite bind_execute_bound by done. cbn [fst snd conn_db conn_calls].
    rewrite bind_execute_bound by done.
    cbn [query fst snd conn_db conn_calls]. by rewrite Hafter.
Qed.

Lemma delete_todo_run k w :
  delete_todo k no_faults w
  = if decide ((delete_from_todos k (file w)).1 = 0%nat)
    then (Raise (absent_exn k), rolled_back w)
    else (Return (), committed (delete_from_todos k (file w)).2 w).
Proof.
  unfold delete_todo, get_db_connection.
  destruct (decide ((delete_from_todos k (file w)).1 = 0%nat)) as [Hz|Hnz].
  - apply rowcount_zero in Hz as Hk. unfold absent_exn.
    assert (fits_INTEGER (file w) k ↔ int64 k) as Hfits.
    { unfold fits_INTEGER. tauto. }
    destruct (decide (int64 k)) as [Hin|Hout].
    + rewrite bind_execute_bound by (by apply Hfits).
      cbn [connect conn_db conn_calls]. by rewrite decide_True.
    + by rewrite bind_execute_overflow by (by rewrite Hfits).
  - rewrite bind_execute_bound.
    + cbn [connect conn_db conn_calls]. by rewrite decide_False.
    + right. destruct (decide (k ∈ rowids (todos (file w)))) as [|Hk]; [done|].
      by apply rowcount_zero in Hk.
Qed.

Lemma respond_absent {A} ok (enc : A → payload) k :
  400 ≤ status (respond ok enc (Raise (absent_exn k))) ∧
  sent (respond ok enc (Raise (absent_exn k))) ≠ NoBody ∧
  (∀ t, sent (respond ok enc (Raise (absent_exn k))) ≠ JsonTodo t).
Proof. unfold absent_exn. by case_decide. Qed.
End runs.

(** ** Faults only abort

    Under any fault schedule a handler either behaves as it does without
    faults, or raises [sqlite3.Error] with its transaction rolled back. *)

Section faults_abort.
Implicit Types (w : world) (k : Z) (fl : faults).

Ltac open_handler h :=
  intros fl w;
  unfold h, get_db_connection, sql_bind, execute, execute_bound, query; simpl.

Ltac fault fl n := destruct (fl n); simpl; [by right|].

Ltac bound := case_decide; simpl; [|by left].

Lemma get_all_todos_faults : aborts_or_runs get_all_todos.
Proof. open_handler get_all_todos. fault fl 0%nat. fault fl 1%nat. by left. Qed.

Lemma get_todo_faults k : aborts_or_runs (get_todo k).
Proof.
  open_handler get_todo. fault fl 0%nat. bound.
  destruct (fetchone _); simpl; [|by left]. fault fl 1%nat. by left.
Qed.

Lemma create_todo_faults todo : aborts_or_runs (create_todo todo).
Proof.
  open_handler create_todo. fault fl 0%nat. fault fl 1%nat. bound.
  destruct (fetchone _); simpl; [|by left]. fault fl 2%nat. by left.
Qed.

Lemma update_todo_faults k u : aborts_or_runs (update_todo k u).
Proof.
  open_handler update_todo. fault fl 0%nat. bound.
  destruct (fetchone _); simpl; [|by left].
  destruct (set_clauses u); simpl.
  - fault fl 1%nat. bound. destruct (fetchone _); simpl; [|by left].
    fault fl 2%nat. by left.
  - fault fl 1%nat. bound. fault fl 2%nat. bound.
    destruct (fetchone _); simpl; [|by left].
    fault fl 3%nat. by left.
Qed.

Lemma delete_todo_faults k : aborts_or_runs (delete_todo k).
Proof.
  open_handler delete_todo. fault fl 0%nat. bound.
  case_decide; simpl; [by left|]. fault fl 1%nat. by left.
Qed.

Lemma via_faults {A} ok enc (h : handler A) fl w :
  aborts_or_runs h →
  via ok enc h fl w = via ok enc h no_faults w ∨
  via ok enc h fl w
  = (mkResponse HTTP_500_INTERNAL_SERVER_ERROR InternalServerError,
     rolled_back w).
Proof.
  intros Hh. unfold via. destruct (Hh fl w) as [-> | ->]; [by left|by right].
Qed.

Lemma serve_faults req fl w :
  serve req fl w = serve req no_faults w ∨
  serve req fl w
  = (mkResponse HTTP_500_INTERNAL_SERVER_ERROR InternalServerError,
     rolled_back w).
Proof.
  destruct req as [|k|b|k b|k]; simpl.
  - apply via_faults, get_all_todos_faults.
  - apply via_faults, get_todo_faults.
  - destruct (validate_TodoCreate b); [by left|].
    apply via_faults, create_todo_faults.
  - destruct (validate_TodoUpdate b); [by left|].
    apply via_faults, update_todo_faults.
  - apply via_faults, delete_todo_faults.
Qed.
End faults_abort.

(** ** Validation *)

Section validation.
Lemma has_min_length_1 c : has_min_length 1 c = true ↔ c ≠ "".
Proof.
  unfold has_min_length. rewrite bool_decide_eq_true.
  destruct c; simpl; split; (done || lia).
Qed.

Lemma validate_TodoCreate_ok c b :
  c ≠ "" →
  validate_TodoCreate (mkBody (Some c) b)
  = inr (mkTodoCreate c (default false b)).
Proof.
  intros Hc%has_min_length_1. unfold validate_TodoCreate; simpl. by rewrite Hc.
Qed.

Lemma validate_TodoCreate_inr b todo :
  validate_TodoCreate b = inr todo → create_content todo ≠ "".
Proof.
  unfold validate_TodoCreate. destruct (body_content b) as [c|]; [|done].
  destruct (has_min_length 1 c) eqn:Hc; [|done].
  intros [= <-]; simpl. by apply has_min_length_1.
Qed.

Lemma validate_TodoUpdate_inr b u :
  validate_TodoUpdate b = inr u →
  update_content u ≠ Some "" ∧
  update_content u = body_content b ∧
  update_completed u = body_completed b.
Proof.
  unfold validate_TodoUpdate. destruct (body_content b) as [c|].
  - destruct (has_min_length 1 c) eqn:Hc; [|done].
    intros [= <-]; simpl. apply has_min_length_1 in Hc.
    split_and!; [congruence|done..].
  - by intros [= <-].
Qed.

Lemma validate_TodoUpdate_ok c b :
  c ≠ Some "" →
  validate_TodoUpdate (mkBody c b) = inr (mkTodoUpdate c b).
Proof.
  intros Hc. unfold validate_TodoUpdate; simpl. destruct c as [c|]; [|done].
  assert (c ≠ "") as Hne%has_min_length_1 by congruence. by rewrite Hne.
Qed.
End validation.

(** ** What one request does to the file *)

Section transitions.
Implicit Types (w : world) (d : database) (k : Z).

Lemma serve_transition req fl w :
  transition (file w) (created_id (serve req fl w).1) (file (serve req fl w).2).
Proof.
  destruct (serve_faults req fl w) as [-> | ->]; [|constructor].
  destruct req as [|k|b|k b|k]; unfold serve, via.
  - rewrite get_all_todos_run. constructor.
  - rewrite get_todo_run. destruct (fetchone _); [constructor|].
    unfold absent_exn. case_decide; constructor.
  - destruct (validate_TodoCreate b) as [e|todo] eqn:Hv; [constructor|].
    rewrite create_todo_run; simpl.
    by apply (transition_insert (file w)), validate_TodoCreate_inr with b.
  - destruct (validate_TodoUpdate b) as [e|u] eqn:Hv; [constructor|].
    destruct (fetchone (select_where_todo_id k (file w))) as [r|] eqn:Hr.
    + rewrite (update_todo_found _ _ _ r) by done; simpl.
      apply transition_update. by apply validate_TodoUpdate_inr in Hv as [? _].
    + rewrite update_todo_missing by done.
      unfold absent_exn. case_decide; constructor.
  - rewrite delete_todo_run. case_decide; simpl; [|constructor].
    unfold absent_exn. case_decide; constructor.
Qed.

Lemma content_assigned r u :
  update_content u ≠ Some "" → col_content r ≠ "" →
  col_content (foldl assign r (set_clauses u)) ≠ "".
Proof.
  unfold set_clauses.
  destruct (update_content u) as [c|], (update_completed u) as [b|];
    simpl; congruence.
Qed.

Lemma transition_contents d o d' :
  transition d o d' →
  Forall (λ r, col_content r ≠ "") (todos d) →
  Forall (λ r, col_content r ≠ "") (todos d').
Proof.
  intros Ht Hrows. destruct Ht as [|c b Hc|u k Hu|k]; simpl.
  - done.
  - apply Forall_app. split; [done|]. by apply Forall_singleton.
  - apply Forall_fmap. eapply Forall_impl; [done|].
    intros r Hr; simpl. case_decide; [|done]. by apply content_assigned.
  - apply Forall_forall. intros r [_ Hr]%list_elem_of_filter.
    by apply (proj1 (Forall_forall _ _) Hrows).
Qed.

Lemma transition_well_formed d o d' :
  transition d o d' → well_formed d → well_formed d'.
Proof.
  intros Ht [Hnd Hrows]. destruct Ht as [|c b Hc|u k Hu|k].
  - done.
  - split; simpl.
    + unfold rowids. rewrite fmap_app; simpl. apply NoDup_app. split_and!.
      * done.
      * intros j Hj ->%list_elem_of_singleton. by apply (new_rowid_fresh d).
      * apply NoDup_singleton.
    + pose proof (new_rowid_above_sequence d).
      pose proof (new_rowid_positive d).
      apply Forall_app. split.
      * eapply Forall_impl; [done|]. simpl. intros r [? ?]. split; [lia|done].
      * apply Forall_singleton; simpl. split; [lia|done].
  - split.
    + by rewrite rowids_update.
    + simpl. apply Forall_fmap. eapply Forall_impl; [done|].
      intros r [? ?]; simpl. case_decide; [|done].
      rewrite rowid_assigned. split; [done|]. by apply content_assigned.
  - split.
    + rewrite rowids_delete. by apply NoDup_filter.
    + simpl. apply Forall_forall. intros r [_ Hr]%list_elem_of_filter.
      by apply (proj1 (Forall_forall _ _) Hrows).
Qed.

Lemma transition_sequence d o d' :
  transition d o d' → sqlite_sequence d ≤ sqlite_sequence d'.
Proof.
  destruct 1; simpl; [lia| |lia..].
  pose proof (new_rowid_above_sequence d). lia.
Qed.


Lemma serve_all_cons req fl reqs w :
  serve_all ((req, fl) :: reqs) w
  = ((serve req fl w).1 :: (serve_all reqs (serve req fl w).2).1,
     (serve_all reqs (serve req fl w).2).2).
Proof.
  simpl. destruct (serve req fl w) as [r w1]; simpl.
  by destruct (serve_all reqs w1).
Qed.

Lemma serve_all_invariant (P : database → Prop) reqs w :
  (∀ d o d', transition d o d' → P d → P d') →
  P (file w) → P (file (serve_all reqs w).2).
Proof.
  intros Hstep. revert w. induction reqs as [|[req fl] reqs IH]; intros w Hw.
  - done.
  - rewrite serve_all_cons; simpl. apply IH.
    eapply Hstep; [apply serve_transition|done].
Qed.

Lemma rowid_inj rows r1 r2 :
  NoDup (rowids rows) → r1 ∈ rows → r2 ∈ rows →
  col_todo_id r1 = col_todo_id r2 → r1 = r2.
Proof.
  unfold rowids. induction rows as [|r rows IH]; [by intros _ ?%elem_of_nil|].
  rewrite fmap_cons, NoDup_cons. intros [Hr Hnd] H1 H2 Heq.
  apply elem_of_cons in H1 as [->|H1], H2 as [->|H2].
  - done.
  - destruct Hr. rewrite Heq. by apply list_elem_of_fmap_2.
  - destruct Hr. rewrite <- Heq. by apply list_elem_of_fmap_2.
  - by apply IH.
Qed.

Lemma update_one_row updates r d :
  NoDup (rowids (todos d)) → r ∈ todos d →
  update_todos_set updates (col_todo_id r) d
  = mkDatabase (replace_row r (foldl assign r updates) (todos d))
               (sqlite_sequence d).
Proof.
  intros Hnd Hr. unfold update_todos_set, replace_row. f_equal.
  apply list_fmap_ext. intros i x Hx%list_elem_of_lookup_2.
  destruct (decide (x = r)) as [->|Hne].
  - by rewrite decide_True.
  - rewrite decide_False; [done|]. intros Heq. apply Hne.
    by apply (rowid_inj (todos d)).
Qed.


Lemma startup_well_formed : well_formed (file startup).
Proof. split; simpl; [apply NoDup_nil_2|apply Forall_nil_2]. Qed.
End transitions.

(** * The service against its specification *)

(** ** Create and Get *)

(** C1: for every non-empty [c] and every [completed] flag, given or
    omitted, POST /todos answers 201 with a record that carries exactly [c],
    the flag ([false] when omitted) and a positive [todo_id]; GET
    /todos/{id} with that id then answers 200 with the very same record. *)
Theorem create_then_get (c : string) (b : option bool) (w : world) :
  c ≠ "" →
  ∃ t w',
    serve (POST_todos (mkBody (Some c) b)) no_faults w
      = (mkResponse HTTP_201_CREATED (JsonTodo t), w') ∧
    content t = c ∧
    completed t = default false b ∧
    0 < todo_id t ∧
    serve (GET_todo (todo_id t)) no_faults w'
      = (mkResponse HTTP_200_OK (JsonTodo t), committed (file w') w').
Proof.
  intros Hc.
  exists (mkTodo (new_rowid (file w)) c (default false b)),
    (committed (insert_into_todos c (Z.b2z (default false b)) (file w)).2 w).
  unfold serve, via.
  rewrite validate_TodoCreate_ok, create_todo_run, get_todo_run by done.
  cbn [file committed todo_id create_content create_completed].
  rewrite select_after_insert.
  split_and!; [done..|apply new_rowid_positive|].
  simpl. unfold row_to_todo; simpl. by rewrite b2z_truth.
Qed.

Lemma create_then_get_witness :
  "buy milk" ≠ "" ∧
  ∃ t w',
    serve (POST_todos (mkBody (Some "buy milk") None)) no_faults startup
      = (mkResponse HTTP_201_CREATED (JsonTodo t), w') ∧
    content t = "buy milk" ∧
    completed t = default false None ∧
    0 < todo_id t ∧
    serve (GET_todo (todo_id t)) no_faults w'
      = (mkResponse HTTP_200_OK (JsonTodo t), committed (file w') w').
Proof.
  split; [discriminate|].
  apply (create_then_get "buy milk" None startup). discriminate.
Defined.

(** ** List *)

Global Instance rowid_le_transitive : Transitive rowid_le.
Proof. unfold rowid_le. intros r1 r2 r3. lia. Qed.

Global Instance rowid_le_total : Total rowid_le.
Proof. unfold rowid_le. intros r1 r2. lia. Qed.

(** C3: in every state GET /todos answers 200 with a list that holds exactly
    the rows of the table, each as the record of its [todo_id], [content]
    and [completed] columns, in ascending order of [todo_id]; on an empty
    table the answer is 200 with the empty list. *)
Theorem list_todos_sorted (w : world) :
  ∃ l,
    serve GET_todos no_faults w
      = (mkResponse HTTP_200_OK (JsonTodos l), committed (file w) w) ∧
    StronglySorted (λ t1 t2, todo_id t1 ≤ todo_id t2) l ∧
    l ≡ₚ (λ r, mkTodo (col_todo_id r) (col_content r)
                      (bool_decide (col_completed r ≠ 0)))
         <$> todos (file w) ∧
    ∀ s lg,
      (serve GET_todos no_faults (mkWorld (mkDatabase [] s) lg)).1
      = mkResponse HTTP_200_OK (JsonTodos []).
Proof.
  exists (row_to_todo <$> select_all_order_by_todo_id (file w)).
  unfold serve, via. rewrite get_all_todos_run. split_and!.
  - done.
  - apply StronglySorted_fmap with (R1 := rowid_le); [by intros r1 r2|].
    apply StronglySorted_merge_sort; apply _.
  - unfold select_all_order_by_todo_id. rewrite merge_sort_Permutation.
    reflexivity.
  - done.
Qed.

(** ** Validation of the request body *)

(** C6: POST /todos with a body whose [content] is missing or empty is
    answered 422 with an error that names the field, whatever the faults of
    the store; no connection is opened and the file is untouched: the world
    after the request is the world before it. *)
Theorem create_without_content (b : json_body) (fl : faults) (w : world) :
  body_content b = None ∨ body_content b = Some "" →
  ∃ e,
    serve (POST_todos b) fl w
      = (mkResponse HTTP_422_UNPROCESSABLE_ENTITY (JsonValidationError e), w) ∧
    (e = Missing "content" ∨ e = StringTooShort "content" 1) ∧
    400 ≤ status (serve (POST_todos b) fl w).1 < 500.
Proof.
  unfold serve, validate_TodoCreate, unprocessable.
  intros [-> | ->]; simpl; eexists; split_and!; eauto; done.
Qed.

Lemma create_without_content_witness :
  (body_content (mkBody (Some "") (Some true)) = None ∨
   body_content (mkBody (Some "") (Some true)) = Some "") ∧
  ∃ e,
    serve (POST_todos (mkBody (Some "") (Some true))) no_faults startup
      = (mkResponse HTTP_422_UNPROCESSABLE_ENTITY (JsonValidationError e),
         startup) ∧
    (e = Missing "content" ∨ e = StringTooShort "content" 1) ∧
    400 ≤ status (serve (POST_todos (mkBody (Some "") (Some true)))
                    no_faults startup).1 < 500.
Proof.
  split; [by right|].
  apply (create_without_content (mkBody (Some "") (Some true)) no_faults startup).
  by right.
Defined.

(** C10: PUT /todos/{id} with [content] given as the empty string is
    answered 422 before the handler is called, whatever the faults of the
    store, and the world is left as it was; and whatever the body of a PUT,
    a table without empty contents has none afterwards. *)
Theorem update_with_empty_content (k : Z) (b : option bool) (fl : faults)
    (w : world) :
  serve (PUT_todo k (mkBody (Some "") b)) fl w
    = (mkResponse HTTP_422_UNPROCESSABLE_ENTITY
         (JsonValidationError (StringTooShort "content" 1)), w) ∧
  ∀ body,
    Forall (λ r, col_content r ≠ "") (todos (file w)) →
    Forall (λ r, col_content r ≠ "")
           (todos (file (serve (PUT_todo k body) fl w).2)).
Proof.
  split; [done|]. intros body Hrows.
  eapply transition_contents; [apply serve_transition|done].
Qed.

Lemma update_with_empty_content_witness :
  Forall (λ r, col_content r ≠ "") (todos (file one_todo)) ∧
  Forall (λ r, col_content r ≠ "")
         (todos (file (serve (PUT_todo 1 (mkBody (Some "buy oat milk") None))
                             no_faults one_todo).2)).
Proof.
  assert (Forall (λ r, col_content r ≠ "") (todos (file one_todo))) as Hrows.
  { vm_compute. by repeat constructor. }
  split; [done|].
  by apply (proj2 (update_with_empty_content 1 None no_faults one_todo)).
Defined.

(** ** Update *)

(** C2: in a table with distinct ids, PUT /todos/{id} on the id of a row [r]
    with only [completed] in the body answers 200 with [r]'s id and content
    and the new flag, and leaves the table as it was except that [r] now
    holds the new flag: the [todo_id] and [content] of [r] and every other
    row are as before.  With only [content] (not empty) in the body it is
    the content of [r] that is replaced, and its [todo_id] and [completed]
    are as before. *)
Theorem partial_update (r : Row) (w : world) :
  NoDup (rowids (todos (file w))) →
  r ∈ todos (file w) →
  (∀ b,
     serve (PUT_todo (col_todo_id r) (mkBody None (Some b))) no_faults w
     = (mkResponse HTTP_200_OK
          (JsonTodo (mkTodo (col_todo_id r) (col_content r) b)),
        committed
          (mkDatabase
             (replace_row r (mkRow (col_todo_id r) (col_content r) (Z.b2z b))
                          (todos (file w)))
             (sqlite_sequence (file w))) w)) ∧
  (∀ c, c ≠ "" →
     serve (PUT_todo (col_todo_id r) (mkBody (Some c) None)) no_faults w
     = (mkResponse HTTP_200_OK
          (JsonTodo (mkTodo (col_todo_id r) c (completed (row_to_todo r)))),
        committed
          (mkDatabase
             (replace_row r (mkRow (col_todo_id r) c (col_completed r))
                          (todos (file w)))
             (sqlite_sequence (file w))) w)).
Proof.
  intros Hnd Hr.
  assert (fetchone (select_where_todo_id (col_todo_id r) (file w)) = Some r)
    as Hsel by (by rewrite select_unique).
  split.
  - intros b. unfold serve, via.
    rewrite (validate_TodoUpdate_ok None) by done.
    rewrite (update_todo_found _ _ _ r), update_one_row by done.
    simpl. unfold row_to_todo; simpl. by rewrite b2z_truth.
  - intros c Hc. unfold serve, via.
    rewrite validate_TodoUpdate_ok by congruence.
    rewrite (update_todo_found _ _ _ r), update_one_row by done.
    done.
Qed.

Lemma one_todo_rows : todos (file one_todo) = [milk].
Proof. reflexivity. Qed.

Lemma two_todos_rows : todos (file two_todos) = [milk; mkRow 2 "walk the dog" 1].
Proof. reflexivity. Qed.

Lemma two_todos_distinct : NoDup (rowids (todos (file two_todos))).
Proof. rewrite two_todos_rows. apply (bool_decide_unpack _). reflexivity. Qed.

Lemma partial_update_witness :
  NoDup (rowids (todos (file two_todos))) ∧
  milk ∈ todos (file two_todos) ∧
  serve (PUT_todo 1 (mkBody None (Some true))) no_faults two_todos
    = (mkResponse 200 (JsonTodo (mkTodo 1 "buy milk" true)),
       committed (mkDatabase [mkRow 1 "buy milk" 1; mkRow 2 "walk the dog" 1] 2)
                 two_todos) ∧
  serve (PUT_todo 1 (mkBody (Some "buy oat milk") None)) no_faults two_todos
    = (mkResponse 200 (JsonTodo (mkTodo 1 "buy oat milk" false)),
       committed
         (mkDatabase [mkRow 1 "buy oat milk" 0; mkRow 2 "walk the dog" 1] 2)
         two_todos).
Proof.
  assert (milk ∈ todos (file two_todos)) as Hin.
  { rewrite two_todos_rows. left. }
  destruct (partial_update milk two_todos two_todos_distinct Hin)
    as [Hcompleted Hcontent].
  split_and!; [apply two_todos_distinct|done|apply Hcompleted|].
  by apply (Hcontent "buy oat milk").
Defined.



(** ** Requests for an id *)

Lemma append_length s t :
  String.length (s +:+ t) = (String.length s + String.length t)%nat.
Proof. induction s as [|a s IH]; simpl; [done|by rewrite IH]. Qed.

Lemma append_inj_l t s1 s2 : s1 +:+ t = s2 +:+ t → s1 = s2.
Proof.
  revert s2. induction s1 as [|a s1 IH]; intros [|a' s2] Heq.
  - done.
  - apply (f_equal String.length) in Heq.
    rewrite !append_length in Heq. simpl in Heq. lia.
  - apply (f_equal String.length) in Heq.
    rewrite !append_length in Heq. simpl in Heq. lia.
  - injection Heq as -> Heq. f_equal. by apply IH.
Qed.

Lemma not_found_detail_inj j k : not_found_detail j = not_found_detail k → j = k.
Proof.
  unfold not_found_detail. intros Heq%(inj (String.app _))%append_inj_l.
  by apply (inj pretty).
Qed.

Lemma get_todo_reads k fl w : file (serve (GET_todo k) fl w).2 = file w.
Proof.
  destruct (serve_faults (GET_todo k) fl w) as [-> | ->]; [|done].
  unfold serve, via. rewrite get_todo_run. by destruct (fetchone _).
Qed.

Lemma absent_exn_int64 k :
  int64 k → absent_exn k = HTTPException HTTP_404_NOT_FOUND (not_found_detail k).
Proof. intros Hk. unfold absent_exn. by rewrite decide_True. Qed.

Lemma absent_exn_overflow k : ¬ int64 k → absent_exn k = OverflowError.
Proof. intros Hk. unfold absent_exn. by rewrite decide_False. Qed.

(** X15: for an id [k] of the signed 64-bit range that no row of the table
    has, GET /todos/{k} and PUT /todos/{k} with any valid body are answered
    404 with the detail "Todo with id k not found" (which determines [k]),
    their transaction is rolled back, and under any fault schedule the file
    is left as it was.  For the id of a row [r] of a table with distinct
    ids, GET answers 200 with the record of the three columns of [r]. *)
Theorem get_update_by_id (k : Z) (w : world) :
  (int64 k → k ∉ rowids (todos (file w)) →
   serve (GET_todo k) no_faults w
     = (mkResponse HTTP_404_NOT_FOUND
          (JsonDetail ("Todo with id " +:+ pretty k +:+ " not found")),
        rolled_back w) ∧
   (∀ c b, c ≠ Some "" →
      serve (PUT_todo k (mkBody c b)) no_faults w
      = (mkResponse HTTP_404_NOT_FOUND
           (JsonDetail ("Todo with id " +:+ pretty k +:+ " not found")),
         rolled_back w)) ∧
   (∀ j, not_found_detail j = not_found_detail k → j = k) ∧
   (∀ fl body,
      file (serve (GET_todo k) fl w).2 = file w ∧
      file (serve (PUT_todo k body) fl w).2 = file w)) ∧
  (∀ r, NoDup (rowids (todos (file w))) →
        r ∈ todos (file w) → col_todo_id r = k →
        serve (GET_todo k) no_faults w
        = (mkResponse HTTP_200_OK
             (JsonTodo (mkTodo (col_todo_id r) (col_content r)
                               (bool_decide (col_completed r ≠ 0)))),
           committed (file w) w)).
Proof.
  split.
  - intros Hin Hk%select_absent.
    assert (∀ u, update_todo k u no_faults w
                 = (Raise (HTTPException 404 (not_found_detail k)),
                    rolled_back w)) as Hput.
    { intros u. rewrite update_todo_missing by (by rewrite Hk).
      by rewrite absent_exn_int64. }
    split_and!.
    + unfold serve, via. by rewrite get_todo_run, Hk, absent_exn_int64.
    + intros c b Hc. unfold serve, via.
      by rewrite validate_TodoUpdate_ok, Hput.
    + intros j. apply not_found_detail_inj.
    + intros fl body. split; [apply get_todo_reads|].
      destruct (serve_faults (PUT_todo k body) fl w) as [-> | ->]; [|done].
      unfold serve, via. destruct (validate_TodoUpdate body); [done|].
      by rewrite Hput.
  - intros r Hnd Hr <-. unfold serve, via.
    by rewrite get_todo_run, select_unique.
Qed.

Lemma get_update_by_id_witness :
  (int64 9999 ∧
   (9999 ∉ rowids (todos (file startup))) ∧
   serve (GET_todo 9999) no_faults startup
     = (mkResponse 404 (JsonDetail "Todo with id 9999 not found"),
        rolled_back startup) ∧
   serve (PUT_todo 9999 (mkBody None (Some true))) no_faults startup
     = (mkResponse 404 (JsonDetail "Todo with id 9999 not found"),
        rolled_back startup)) ∧
  (NoDup (rowids (todos (file two_todos))) ∧
   milk ∈ todos (file two_todos) ∧
   serve (GET_todo 1) no_faults two_todos
     = (mkResponse 200 (JsonTodo (mkTodo 1 "buy milk" false)),
        committed (file two_todos) two_todos)).
Proof.
  assert (int64 9999) as Hrange by (unfold int64; lia).
  assert (9999 ∉ rowids (todos (file startup))) as Hout by apply not_elem_of_nil.
  assert (milk ∈ todos (file two_todos)) as Hin.
  { rewrite two_todos_rows. left. }
  split.
  - destruct (proj1 (get_update_by_id 9999 startup) Hrange Hout)
      as (Hget & Hput & _).
    split_and!; [done..|exact Hget|]. apply Hput. discriminate.
  - split_and!; [apply two_todos_distinct|done|].
    apply (proj2 (get_update_by_id 1 two_todos) milk two_todos_distinct Hin).
    reflexivity.
Defined.

(** C4 at an id outside the signed 64-bit range: 2^63 is the id of no row,
    and GET /todos/{id} and PUT /todos/{id} for it are answered 500 with the
    transaction rolled back, not 404, because the driver raises
    [OverflowError] when it binds the id. *)
Lemma get_update_by_id_out_of_range :
  (9223372036854775808 ∉ rowids (todos (file startup))) ∧
  serve (GET_todo 9223372036854775808) no_faults startup
    = (mkResponse 500 InternalServerError, rolled_back startup) ∧
  serve (PUT_todo 9223372036854775808 (mkBody None (Some true)))
        no_faults startup
    = (mkResponse 500 InternalServerError, rolled_back startup) ∧
  status (serve (GET_todo 9223372036854775808) no_faults startup).1
    ≠ HTTP_404_NOT_FOUND.
Proof. split; [apply not_elem_of_nil|]. by vm_compute. Qed.

(** ** Delete *)




(** DELETE for an id outside the signed 64-bit range: the statement does not
    run, the table is as before, and the answer is 500. *)
Example delete_out_of_range :
  serve (DELETE_todo 9223372036854775808) no_faults two_todos
    = (mkResponse 500 InternalServerError, rolled_back two_todos) ∧
  execute_bound 9223372036854775808 (delete_from_todos 9223372036854775808)
                no_faults (connect two_todos)
    = (Raise OverflowError, mkConn (file two_todos) 1).
Proof. by vm_compute. Qed.

(** ** The connection scope *)

Lemma serve_shape req w :
  (∃ e, serve req no_faults w = (unprocessable e, w)) ∨
  (∃ resp, serve req no_faults w = (resp, rolled_back w) ∧
           400 ≤ status resp) ∨
  (∃ resp d, serve req no_faults w = (resp, committed d w) ∧
             200 ≤ status resp < 300).
Proof.
  destruct req as [|k|b|k b|k]; unfold serve, via.
  - rewrite get_all_todos_run. right; right. by eexists _, _.
  - rewrite get_todo_run. destruct (fetchone _).
    + right; right. by eexists _, _.
    + right; left. eexists. split; [done|]. apply respond_absent.
  - destruct (validate_TodoCreate b) as [e|todo]; [left; by exists e|].
    rewrite create_todo_run. right; right. by eexists _, _.
  - destruct (validate_TodoUpdate b) as [e|u]; [left; by exists e|].
    destruct (fetchone (select_where_todo_id k (file w))) as [r|] eqn:Hr.
    + rewrite (update_todo_found _ _ _ r) by done. right; right. by eexists _, _.
    + rewrite update_todo_missing by done. right; left.
      eexists. split; [done|]. apply respond_absent.
  - rewrite delete_todo_run. case_decide.
    + right; left. eexists. split; [done|]. apply respond_absent.
    + right; right. by eexists _, _.
Qed.

(** C8: [get_db_connection] opens one connection, commits exactly when its
    body returns and the commit succeeds, otherwise rolls back and re-raises
    the exception, and closes the connection in either case.  Hence every
    request, under any fault schedule, is either rejected by validation with
    the world untouched, or runs in one scope Connect, Commit or Rollback,
    Close: it commits when it succeeds, and when it fails the file is what
    it was before the request. *)
Theorem scoped_connection (req : request) (fl : faults) (w : world) :
  (∀ A (body : sql A),
     ∃ ev,
       log (get_db_connection body fl w).2 = log w ++ [Connect; ev; Close] ∧
       match (get_db_connection body fl w).1 with
       | Return a =>
           ev = Commit ∧
           ∃ c, body fl (connect w) = (Return a, c) ∧
                fl (conn_calls c) = false ∧
                file (get_db_connection body fl w).2 = conn_db c
       | Raise e =>
           ev = Rollback ∧
           file (get_db_connection body fl w).2 = file w ∧
           ((∃ c, body fl (connect w) = (Raise e, c)) ∨
            (e = sqlite3_Error ∧
             ∃ a c, body fl (connect w) = (Return a, c) ∧
                    fl (conn_calls c) = true))
       end) ∧
  (((serve req fl w).2 = w ∧
    status (serve req fl w).1 = HTTP_422_UNPROCESSABLE_ENTITY) ∨
   ∃ ev,
     log (serve req fl w).2 = log w ++ [Connect; ev; Close] ∧
     ((ev = Commit ∧ status (serve req fl w).1 < 400) ∨
      (ev = Rollback ∧ 400 ≤ status (serve req fl w).1 ∧
       file (serve req fl w).2 = file w))) ∧
  (status (serve req fl w).1 < 400 ∨ file (serve req fl w).2 = file w).
Proof.
  split_and!.
  - intros A body. unfold get_db_connection.
    destruct (body fl (connect w)) as [[a|e] c] eqn:Hbody.
    + destruct (fl (conn_calls c)) eqn:Hcommit; simpl.
      * exists Rollback. split_and!; [done..|]. right. split; [done|].
        by exists a, c.
      * exists Commit. split_and!; [done..|]. by exists c.
    + exists Rollback. simpl. split_and!; [done..|]. left. by exists c.
  - destruct (serve_faults req fl w) as [-> | ->].
    + destruct (serve_shape req w)
        as [[e ->]|[(resp & -> & Hbad)|(resp & d & -> & Hst)]]; simpl.
      * by left.
      * right. exists Rollback. split; [done|]. by right.
      * right. exists Commit. split; [done|]. left. split; [done|lia].
    + right. exists Rollback. split; [done|]. by right.
  - destruct (serve_faults req fl w) as [-> | ->]; [|by right].
    destruct (serve_shape req w)
      as [[e ->]|[(resp & -> & Hbad)|(resp & d & -> & Hst)]]; simpl;
      [by right|by right|left; lia].
Qed.

(** A PUT whose UPDATE statement ran and whose final SELECT raised: the
    transaction had replaced the row, and the file still holds the old
    one. *)
Example failed_update_rolled_back :
  ∃ body : sql Todo,
    update_todo 1 (mkTodoUpdate (Some "buy oat milk") (Some true))
      = get_db_connection body ∧
    body (fail_at 2) (connect one_todo)
      = (Raise sqlite3_Error,
         mkConn (mkDatabase [mkRow 1 "buy oat milk" 1] 1) 3) ∧
    serve (PUT_todo 1 (mkBody (Some "buy oat milk") (Some true)))
          (fail_at 2) one_todo
      = (mkResponse 500 InternalServerError, rolled_back one_todo) ∧
    todos (file (rolled_back one_todo)) = [mkRow 1 "buy milk" 0].
Proof. eexists. split; [reflexivity|]. by vm_compute. Qed.

(** ** Ids and contents over runs *)

Lemma transition_ids d o d' :
  transition d o d' →
  sqlite_sequence d ≤ sqlite_sequence d' ∧
  match o with
  | None => rowids (todos d') `sublist_of` rowids (todos d)
  | Some n =>
      sqlite_sequence d < n ∧ sqlite_sequence d' = n ∧
      rowids (todos d') = rowids (todos d) ++ [n]
  end.
Proof.
  intros Ht. split; [by eapply transition_sequence|].
  destruct Ht as [|c b Hc|u k Hu|k].
  - done.
  - split_and!; [apply new_rowid_above_sequence|done|].
    simpl. unfold rowids. by rewrite fmap_app.
  - by rewrite rowids_update.
  - rewrite rowids_delete. apply sublist_filter.
Qed.

Lemma created_ids_cons r rs :
  created_ids (r :: rs) = option_list (created_id r) ++ created_ids rs.
Proof. unfold created_ids; simpl. by destruct (created_id r). Qed.

Lemma serve_all_ids reqs w :
  Forall (λ n, sqlite_sequence (file w) < n
               ≤ sqlite_sequence (file (serve_all reqs w).2))
         (created_ids (serve_all reqs w).1) ∧
  StronglySorted Z.lt (created_ids (serve_all reqs w).1) ∧
  sqlite_sequence (file w) ≤ sqlite_sequence (file (serve_all reqs w).2) ∧
  rowids (todos (file (serve_all reqs w).2))
    `sublist_of` rowids (todos (file w)) ++ created_ids (serve_all reqs w).1.
Proof.
  revert w. induction reqs as [|[req fl] reqs IH]; intros w.
  - simpl. split_and!; [constructor|constructor|done|by rewrite app_nil_r].
  - rewrite serve_all_cons. cbn [fst snd]. rewrite created_ids_cons.
    destruct (IH (serve req fl w).2) as (Hbounds & Hsorted & Hseq & Hsub).
    destruct (transition_ids _ _ _ (serve_transition req fl w)) as [Hle Hids].
    destruct (created_id (serve req fl w).1) as [n|]; simpl.
    + destruct Hids as (Hlt & Hn & Hrows). split_and!.
      * constructor; [lia|]. eapply Forall_impl; [done|]. simpl. lia.
      * constructor; [done|]. eapply Forall_impl; [done|]. simpl. lia.
      * lia.
      * rewrite Hrows, <- app_assoc in Hsub. done.
    + split_and!.
      * eapply Forall_impl; [done|]. simpl. lia.
      * done.
      * lia.
      * etrans; [done|]. by apply sublist_app.
Qed.

Lemma put_keeps_rowids k b fl w :
  rowids (todos (file (serve (PUT_todo k b) fl w).2)) = rowids (todos (file w)).
Proof.
  destruct (serve_faults (PUT_todo k b) fl w) as [-> | ->]; [|done].
  unfold serve, via. destruct (validate_TodoUpdate b) as [e|u]; [done|].
  destruct (fetchone (select_where_todo_id k (file w))) as [r|] eqn:Hr.
  - rewrite (update_todo_found _ _ _ r) by done. apply rowids_update.
  - by rewrite update_todo_missing.
Qed.

(** C9: after any run of requests from startup, whatever the faults, the
    ids of the table are distinct, positive and at most the sequence entry,
    and no content is empty; the ids that the responses report as created
    are strictly increasing, and the ids of the table are among them, in
    that order.  One more request never changes the id of a row: PUT leaves
    the column of ids as it is, and any request leaves it as it is, or
    appends one id above the sequence entry, or removes the rows of one
    id; the sequence entry never decreases. *)
Theorem ids_and_contents (reqs : list (request * faults)) :
  let w := (serve_all reqs startup).2 in
  NoDup (rowids (todos (file w))) ∧
  Forall (λ r, 0 < col_todo_id r ≤ sqlite_sequence (file w) ∧
               col_content r ≠ "") (todos (file w)) ∧
  StronglySorted Z.lt (created_ids (serve_all reqs startup).1) ∧
  rowids (todos (file w)) `sublist_of` created_ids (serve_all reqs startup).1 ∧
  ∀ req fl,
    let d := file w in
    let d' := file (serve req fl w).2 in
    sqlite_sequence d ≤ sqlite_sequence d' ∧
    (rowids (todos d') = rowids (todos d) ∨
     (∃ n, sqlite_sequence d < n ∧ rowids (todos d') = rowids (todos d) ++ [n]) ∨
     (∃ k, rowids (todos d') = filter (λ j, j ≠ k) (rowids (todos d)))) ∧
    ∀ k b,
      rowids (todos (file (serve (PUT_todo k b) fl w).2)) = rowids (todos d).
Proof.
  intros w.
  destruct (serve_all_invariant well_formed reqs startup transition_well_formed
              startup_well_formed) as [Hnd Hrows].
  destruct (serve_all_ids reqs startup) as (_ & Hsorted & _ & Hsub).
  split_and!; [done..|].
  intros req fl d d'. split_and!.
  - by eapply transition_sequence, serve_transition.
  - pose proof (serve_transition req fl w) as Ht. fold d d' in Ht.
    destruct Ht as [|c b Hc|u k Hu|k].
    + by left.
    + right; left. exists (new_rowid d).
      split; [apply new_rowid_above_sequence|].
      simpl. unfold rowids. by rewrite fmap_app.
    + left. apply rowids_update.
    + right; right. exists k. apply rowids_delete.
  - intros k b. apply put_keeps_rowids.
Qed.

(** * Further properties of the handlers *)

(** ** What a request sees of the world

    A request reads the file and nothing else: its response and the file it
    leaves depend on the file only. *)

Section file_only.
Implicit Types (w : world) (k : Z) (fl : faults).

Lemma get_db_connection_file {A} (body : sql A) fl w1 w2 :
  file w1 = file w2 →
  (get_db_connection body fl w1).1 = (get_db_connection body fl w2).1 ∧
  file (get_db_connection body fl w1).2 = file (get_db_connection body fl w2).2.
Proof.
  intros Hfile. unfold get_db_connection, connect. rewrite Hfile.
  destruct (body fl (mkConn (file w2) 0)) as [[a|e] c]; [|done].
  by destruct (fl (conn_calls c)).
Qed.

Lemma via_file {A} ok enc (body : sql A) fl w1 w2 :
  file w1 = file w2 →
  (via ok enc (get_db_connection body) fl w1).1
  = (via ok enc (get_db_connection body) fl w2).1 ∧
  file (via ok enc (get_db_connection body) fl w1).2
  = file (via ok enc (get_db_connection body) fl w2).2.
Proof.
  intros [Hout Hfile]%(get_db_connection_file body fl). unfold via.
  destruct (get_db_connection body fl w1), (get_db_connection body fl w2).
  simpl in *. by rewrite Hout.
Qed.

Lemma serve_file req fl w1 w2 :
  file w1 = file w2 →
  (serve req fl w1).1 = (serve req fl w2).1 ∧
  file (serve req fl w1).2 = file (serve req fl w2).2.
Proof.
  intros Hfile. destruct req as [|k|b|k b|k]; unfold serve.
  - by apply via_file.
  - by apply via_file.
  - destruct (validate_TodoCreate b); [done|]. by apply via_file.
  - destruct (validate_TodoUpdate b); [done|]. by apply via_file.
  - by apply via_file.
Qed.

Lemma serve_all_file reqs w1 w2 :
  file w1 = file w2 →
  (serve_all reqs w1).1 = (serve_all reqs w2).1 ∧
  file (serve_all reqs w1).2 = file (serve_all reqs w2).2.
Proof.
  revert w1 w2. induction reqs as [|[req fl] reqs IH]; intros w1 w2 Hfile.
  - done.
  - rewrite !serve_all_cons. cbn [fst snd].
    destruct (serve_file req fl w1 w2 Hfile) as [-> Hnext].
    by destruct (IH _ _ Hnext) as [-> ->].
Qed.

Lemma serve_failure_file req fl w :
  400 ≤ status (serve req fl w).1 → file (serve req fl w).2 = file w.
Proof.
  destruct (serve_faults req fl w) as [-> | ->]; [|done].
  destruct (serve_shape req w)
    as [[e ->]|[(resp & -> & Hbad)|(resp & d & -> & Hst)]]; simpl; [done..|lia].
Qed.

Lemma get_all_todos_reads fl w : file (serve GET_todos fl w).2 = file w.
Proof.
  destruct (serve_faults GET_todos fl w) as [-> | ->]; [|done].
  unfold serve, via. by rewrite get_all_todos_run.
Qed.

Lemma first_execute_fault {A B} stmt (k : A → sql B) fl w :
  fl 0%nat = true →
  get_db_connection (sql_bind (execute stmt) k) fl w
  = (Raise sqlite3_Error, rolled_back w).
Proof.
  intros H0. unfold get_db_connection, sql_bind, execute; simpl. by rewrite H0.
Qed.

Lemma first_execute_bound_fault {A B} j stmt (k : A → sql B) fl w :
  fl 0%nat = true →
  get_db_connection (sql_bind (execute_bound j stmt) k) fl w
  = (Raise sqlite3_Error, rolled_back w).
Proof.
  intros H0. unfold get_db_connection, sql_bind, execute_bound; simpl.
  by rewrite H0.
Qed.

Lemma validate_TodoCreate_content b todo :
  validate_TodoCreate b = inr todo →
  body_content b = Some (create_content todo) ∧
  create_completed todo = default false (body_completed b).
Proof.
  unfold validate_TodoCreate. destruct (body_content b) as [c|]; [|done].
  destruct (has_min_length 1 c); [|done]. by intros [= <-].
Qed.


End file_only.

(** ** Reads, statuses and storage failures *)

(** X1: GET /todos and GET /todos/{id} never write: under any fault schedule
    the file after the request is the file before it, and so is every
    response of a run of requests that follows. *)
Theorem reads_never_write (k : Z) (fl : faults) (w : world) :
  file (serve GET_todos fl w).2 = file w ∧
  file (serve (GET_todo k) fl w).2 = file w ∧
  ∀ reqs,
    (serve_all reqs (serve GET_todos fl w).2).1 = (serve_all reqs w).1 ∧
    (serve_all reqs (serve (GET_todo k) fl w).2).1 = (serve_all reqs w).1.
Proof.
  pose proof (get_all_todos_reads fl w) as Hlist.
  pose proof (get_todo_reads k fl w) as Hget.
  split_and!; [done..|].
  intros reqs. split.
  - by apply serve_all_file.
  - by apply serve_all_file.
Qed.

(** X2: [create_todo] and [update_todo] never raise [TypeError], whatever
    the faults: the SELECT that re-reads the row after INSERT or UPDATE
    always finds it, so [row_to_todo] is never given [None].  Without
    faults [create_todo] always returns the new record, and [update_todo]
    returns a record, or raises the 404 exception (id of no row, in the
    signed 64-bit range) or [OverflowError] (id of no row, outside it). *)
Theorem reread_finds_row (todo : TodoCreate) (k : Z) (u : TodoUpdate)
    (fl : faults) (w : world) :
  (create_todo todo fl w).1 ≠ Raise TypeError ∧
  (update_todo k u fl w).1 ≠ Raise TypeError ∧
  (create_todo todo no_faults w).1
    = Return (mkTodo (new_rowid (file w)) (create_content todo)
                     (create_completed todo)) ∧
  ((∃ t, (update_todo k u no_faults w).1 = Return t) ∨
   (int64 k ∧ (k ∉ rowids (todos (file w))) ∧
    (update_todo k u no_faults w).1
      = Raise (HTTPException HTTP_404_NOT_FOUND (not_found_detail k))) ∨
   ((¬ int64 k) ∧ (k ∉ rowids (todos (file w))) ∧
    (update_todo k u no_faults w).1 = Raise OverflowError)).
Proof.
  assert ((∃ t, (update_todo k u no_faults w).1 = Return t) ∨
          (int64 k ∧ (k ∉ rowids (todos (file w))) ∧
           (update_todo k u no_faults w).1
             = Raise (HTTPException HTTP_404_NOT_FOUND (not_found_detail k))) ∨
          ((¬ int64 k) ∧ (k ∉ rowids (todos (file w))) ∧
           (update_todo k u no_faults w).1 = Raise OverflowError)) as Hupdate.
  { destruct (fetchone (select_where_todo_id k (file w))) as [r|] eqn:Hr.
    - left. rewrite (update_todo_found _ _ _ r) by done. by eexists.
    - right. rewrite update_todo_missing by done.
      apply fetchone_missing in Hr. destruct (decide (int64 k)) as [Hk|Hk].
      + left. by rewrite absent_exn_int64.
      + right. by rewrite absent_exn_overflow. }
  split_and!.
  - destruct (create_todo_faults todo fl w) as [-> | ->]; [|done].
    by rewrite create_todo_run.
  - destruct (update_todo_faults k u fl w) as [-> | ->]; [|done].
    destruct Hupdate as [[t ->]|[(_ & _ & ->)|(_ & _ & ->)]]; done.
  - by rewrite create_todo_run.
  - done.
Qed.


(** X4: under any fault schedule a request is answered as without faults,
    or with 500 and its transaction rolled back; when the first call on the
    connection raises, every request that passes validation is answered
    500. *)
Theorem storage_failure_is_500 (req : request) (fl : faults) (w : world) :
  (serve req fl w = serve req no_faults w ∨
   serve req fl w
   = (mkResponse HTTP_500_INTERNAL_SERVER_ERROR InternalServerError,
      rolled_back w)) ∧
  (fl 0%nat = true →
   status (serve req no_faults w).1 ≠ HTTP_422_UNPROCESSABLE_ENTITY →
   serve req fl w
   = (mkResponse HTTP_500_INTERNAL_SERVER_ERROR InternalServerError,
      rolled_back w)).
Proof.
  split; [apply serve_faults|]. intros H0.
  destruct req as [|k|b|k b|k]; unfold serve, via.
  - intros _. unfold get_all_todos. by rewrite first_execute_fault.
  - intros _. unfold get_todo. by rewrite first_execute_bound_fault.
  - destruct (validate_TodoCreate b) as [e|todo]; [done|].
    intros _. unfold create_todo. by rewrite first_execute_fault.
  - destruct (validate_TodoUpdate b) as [e|u]; [done|].
    intros _. unfold update_todo. by rewrite first_execute_bound_fault.
  - intros _. unfold delete_todo. by rewrite first_execute_bound_fault.
Qed.

Lemma storage_failure_is_500_witness :
  fail_at 0 0%nat = true ∧
  status (serve (DELETE_todo 1) no_faults two_todos).1 ≠ 422 ∧
  serve (DELETE_todo 1) (fail_at 0) two_todos
  = (mkResponse 500 InternalServerError, rolled_back two_todos).
Proof.
  assert (status (serve (DELETE_todo 1) no_faults two_todos).1 ≠ 422) as Hst.
  { by vm_compute. }
  split_and!; [done..|].
  by apply (proj2 (storage_failure_is_500 (DELETE_todo 1) (fail_at 0) two_todos)).
Defined.

(** X5: a request that is answered with an error status (422, 404 or 500)
    cannot be observed afterwards: every run of requests gets the same
    responses after it as without it. *)
Theorem failed_request_unobservable (req : request) (fl : faults) (w : world)
    (reqs : list (request * faults)) :
  400 ≤ status (serve req fl w).1 →
  (serve_all reqs (serve req fl w).2).1 = (serve_all reqs w).1 ∧
  file (serve_all reqs (serve req fl w).2).2 = file (serve_all reqs w).2.
Proof. intros Hfile%serve_failure_file. by apply serve_all_file. Qed.

Lemma failed_request_unobservable_witness :
  400 ≤ status (serve (PUT_todo 1 (mkBody (Some "buy oat milk") None))
                      (fail_at 2) two_todos).1 ∧
  (serve_all [(GET_todo 1, no_faults); (GET_todos, no_faults)]
     (serve (PUT_todo 1 (mkBody (Some "buy oat milk") None))
            (fail_at 2) two_todos).2).1
  = (serve_all [(GET_todo 1, no_faults); (GET_todos, no_faults)] two_todos).1.
Proof.
  assert (400 ≤ status (serve (PUT_todo 1 (mkBody (Some "buy oat milk") None))
                              (fail_at 2) two_todos).1) as Hst.
  { by vm_compute. }
  split; [done|].
  apply (failed_request_unobservable
           (PUT_todo 1 (mkBody (Some "buy oat milk") None)) (fail_at 2)
           two_todos [(GET_todo 1, no_faults); (GET_todos, no_faults)] Hst).
Defined.

(** ** Update, read back *)

Section update_read_back.
Implicit Types (w : world) (k : Z) (r : Row) (u : TodoUpdate).

Lemma get_response_found k w t :
  (serve (GET_todo k) no_faults w).1 = mkResponse HTTP_200_OK (JsonTodo t) →
  ∃ r, fetchone (select_where_todo_id k (file w)) = Some r ∧
       t = row_to_todo r ∧ r ∈ todos (file w) ∧ col_todo_id r = k.
Proof.
  unfold serve, via. rewrite get_todo_run.
  destruct (fetchone (select_where_todo_id k (file w))) as [r|] eqn:Hr.
  - intros [= <-]. exists r. destruct (fetchone_found _ _ _ Hr). done.
  - unfold absent_exn. by case_decide.
Qed.

Lemma get_response_select k w1 w2 :
  select_where_todo_id k (file w1) = select_where_todo_id k (file w2) →
  (serve (GET_todo k) no_faults w1).1 = (serve (GET_todo k) no_faults w2).1.
Proof.
  intros Hsel. unfold serve, via. rewrite !get_todo_run, Hsel.
  by destruct (fetchone _).
Qed.

Lemma assigned_row r c b :
  row_to_todo (foldl assign r (set_clauses (mkTodoUpdate c b)))
  = mkTodo (col_todo_id r) (default (col_content r) c)
           (default (completed (row_to_todo r)) b).
Proof.
  destruct c as [c|], b as [b|]; unfold row_to_todo; simpl;
    by rewrite ?b2z_truth.
Qed.

Lemma assigned_twice r u :
  foldl assign (foldl assign r (set_clauses u)) (set_clauses u)
  = foldl assign r (set_clauses u).
Proof.
  unfold set_clauses. by destruct (update_content u), (update_completed u).
Qed.

Lemma update_twice u k d :
  update_todos_set (set_clauses u) k (update_todos_set (set_clauses u) k d)
  = update_todos_set (set_clauses u) k d.
Proof.
  unfold update_todos_set; simpl. f_equal. rewrite <- list_fmap_compose.
  apply list_fmap_ext. intros _ r _; simpl.
  destruct (decide (col_todo_id r = k)) as [Hk|Hk].
  - rewrite decide_True by (by rewrite rowid_assigned). apply assigned_twice.
  - by rewrite decide_False.
Qed.

Lemma fetchone_fmap (f : Row → Row) rows :
  fetchone (f <$> rows) = f <$> fetchone rows.
Proof. by destruct rows. Qed.

Lemma select_delete_other j k d :
  j ≠ k →
  select_where_todo_id j (delete_from_todos k d).2 = select_where_todo_id j d.
Proof.
  intros Hne. unfold select_where_todo_id; simpl.
  induction (todos d) as [|r rows IH]; [done|].
  rewrite !filter_cons. destruct (decide (col_todo_id r = j)) as [Hj|Hj].
  - rewrite decide_True by congruence. rewrite filter_cons, decide_True by done.
    by f_equal.
  - destruct (decide (col_todo_id r ≠ k)); [|done].
    by rewrite filter_cons, decide_False.
Qed.
End update_read_back.

(** X7: PUT /todos/{k} with a valid body on an id for which GET answers the
    record [t0] answers 200 with the record that has the id of [t0], the
    content of the body if it has one and that of [t0] otherwise, and
    likewise for [completed]; GET /todos/{k} then answers that record. *)
Theorem update_then_get (k : Z) (c : option string) (b : option bool)
    (t0 : Todo) (w : world) :
  (serve (GET_todo k) no_faults w).1 = mkResponse HTTP_200_OK (JsonTodo t0) →
  c ≠ Some "" →
  todo_id t0 = k ∧
  ∃ w',
    serve (PUT_todo k (mkBody c b)) no_faults w
      = (mkResponse HTTP_200_OK
           (JsonTodo (mkTodo k (default (content t0) c)
                             (default (completed t0) b))), w') ∧
    serve (GET_todo k) no_faults w'
      = (mkResponse HTTP_200_OK
           (JsonTodo (mkTodo k (default (content t0) c)
                             (default (completed t0) b))),
         committed (file w') w').
Proof.
  intros (r & Hsel & -> & _ & Hk)%get_response_found Hc.
  split; [done|].
  exists (committed (update_todos_set (set_clauses (mkTodoUpdate c b)) k (file w)) w).
  unfold serve, via.
  rewrite validate_TodoUpdate_ok, (update_todo_found _ _ _ r) by done.
  rewrite get_todo_run. cbn [file committed].
  rewrite select_update_same, fetchone_fmap, Hsel. cbn [fmap option_fmap option_map].
  by rewrite assigned_row, Hk.
Qed.

Lemma update_then_get_witness :
  (serve (GET_todo 1) no_faults two_todos).1
    = mkResponse 200 (JsonTodo (mkTodo 1 "buy milk" false)) ∧
  Some "buy oat milk" ≠ Some "" ∧
  ∃ w',
    serve (PUT_todo 1 (mkBody (Some "buy oat milk") (Some true)))
          no_faults two_todos
      = (mkResponse 200 (JsonTodo (mkTodo 1 "buy oat milk" true)), w') ∧
    serve (GET_todo 1) no_faults w'
      = (mkResponse 200 (JsonTodo (mkTodo 1 "buy oat milk" true)),
         committed (file w') w').
Proof.
  assert ((serve (GET_todo 1) no_faults two_todos).1
          = mkResponse 200 (JsonTodo (mkTodo 1 "buy milk" false))) as Hget.
  { reflexivity. }
  assert (Some "buy oat milk" ≠ Some "") as Hc by discriminate.
  split_and!; [done..|].
  apply (update_then_get 1 (Some "buy oat milk") (Some true) _ two_todos Hget Hc).
Defined.

(** X8: PUT is idempotent: sending the same PUT again right after it gets
    the same response and leaves the file as the first one left it, whether
    the first was answered 200, 404 or 422. *)
Theorem update_idempotent (k : Z) (b : json_body) (w : world) :
  (serve (PUT_todo k b) no_faults (serve (PUT_todo k b) no_faults w).2).1
  = (serve (PUT_todo k b) no_faults w).1 ∧
  file (serve (PUT_todo k b) no_faults (serve (PUT_todo k b) no_faults w).2).2
  = file (serve (PUT_todo k b) no_faults w).2.
Proof.
  unfold serve. destruct (validate_TodoUpdate b) as [e|u]; [done|]. unfold via.
  destruct (fetchone (select_where_todo_id k (file w))) as [r|] eqn:Hr.
  - rewrite (update_todo_found k u w r) by done. cbn [fst snd].
    rewrite (update_todo_found _ _ _ (foldl assign r (set_clauses u))).
    + cbn [fst snd file committed]. by rewrite assigned_twice, update_twice.
    + cbn [file committed]. by rewrite select_update_same, fetchone_fmap, Hr.
  - rewrite (update_todo_missing k u w) by done. cbn [fst snd].
    by rewrite update_todo_missing.
Qed.

(** X9: what GET /todos/{k} answers is not changed by a PUT or a DELETE for
    another id, whatever their body and faults, nor, when [k] is an id of
    the table, by a POST. *)
Theorem other_ids_unaffected (k j : Z) (b : json_body) (fl : faults)
    (w : world) :
  (j ≠ k →
   (serve (GET_todo k) no_faults (serve (PUT_todo j b) fl w).2).1
     = (serve (GET_todo k) no_faults w).1 ∧
   (serve (GET_todo k) no_faults (serve (DELETE_todo j) fl w).2).1
     = (serve (GET_todo k) no_faults w).1) ∧
  (k ∈ rowids (todos (file w)) →
   (serve (GET_todo k) no_faults (serve (POST_todos b) fl w).2).1
     = (serve (GET_todo k) no_faults w).1).
Proof.
  split.
  - intros Hne. split.
    + destruct (serve_faults (PUT_todo j b) fl w) as [-> | ->];
      [|by apply get_response_select].
      apply get_response_select. unfold serve, via.
      destruct (validate_TodoUpdate b) as [e|u]; [done|].
      destruct (fetchone (select_where_todo_id j (file w))) as [r|] eqn:Hr.
      * rewrite (update_todo_found _ _ _ r) by done.
        by apply select_update_other.
      * by rewrite update_todo_missing.
    + destruct (serve_faults (DELETE_todo j) fl w) as [-> | ->];
      [|by apply get_response_select].
      apply get_response_select. unfold serve, via. rewrite delete_todo_run.
      case_decide; [done|]. by apply select_delete_other.
  - intros Hk.
    destruct (serve_faults (POST_todos b) fl w) as [-> | ->];
      [|by apply get_response_select].
    apply get_response_select. unfold serve, via.
    destruct (validate_TodoCreate b) as [e|todo]; [done|].
    rewrite create_todo_run. apply others_insert.
    intros ->. by apply (new_rowid_fresh (file w)).
Qed.

Lemma other_ids_unaffected_witness :
  (2 ≠ 1 ∧
   (serve (GET_todo 1) no_faults
      (serve (DELETE_todo 2) no_faults two_todos).2).1
   = (serve (GET_todo 1) no_faults two_todos).1) ∧
  (1 ∈ rowids (todos (file two_todos)) ∧
   (serve (GET_todo 1) no_faults
      (serve (POST_todos (mkBody (Some "call mum") None)) no_faults
             two_todos).2).1
   = (serve (GET_todo 1) no_faults two_todos).1).
Proof.
  assert (1 ∈ rowids (todos (file two_todos))) as Hin.
  { rewrite two_todos_rows. left. }
  assert (2 ≠ 1) as Hne by done.
  split.
  - split; [done|].
    apply (proj1 (other_ids_unaffected 1 2 (mkBody None None) no_faults
                    two_todos) Hne).
  - split; [done|].
    apply (proj2 (other_ids_unaffected 1 2 (mkBody (Some "call mum") None)
                    no_faults two_todos) Hin).
Defined.

(** ** The list and the single records *)

Section listing.
Implicit Types (w : world) (k : Z) (r : Row) (rows : list Row).

Lemma sorted_rows_unique rows l1 l2 :
  NoDup (rowids rows) → l1 ≡ₚ rows → l2 ≡ₚ rows →
  StronglySorted rowid_le l1 → StronglySorted rowid_le l2 → l1 = l2.
Proof.
  intros Hnd H1 H2 Hs1 Hs2.
  apply (StronglySorted_unique_strong rowid_le); [|done..|by rewrite H1, H2].
  unfold rowid_le. intros x1 x2 Hx1 Hx2 Hle Hge.
  apply (rowid_inj rows); [done|by rewrite <- H1|by rewrite <- H2|lia].
Qed.

Lemma StronglySorted_filter {A} (R : relation A) (P : A → Prop)
    `{!∀ x, Decision (P x)} (l : list A) :
  StronglySorted R l → StronglySorted R (filter P l).
Proof.
  induction 1 as [|x l Hl IH Hx]; [constructor|].
  rewrite filter_cons. destruct (decide (P x)); [|done].
  constructor; [done|].
  apply Forall_forall. intros y [_ Hy]%list_elem_of_filter.
  by apply (proj1 (Forall_forall _ _) Hx).
Qed.

Lemma filter_fmap_todo k rows :
  filter (λ t, todo_id t ≠ k) (row_to_todo <$> rows)
  = row_to_todo <$> filter (λ r, col_todo_id r ≠ k) rows.
Proof.
  induction rows as [|r rows IH]; [done|].
  rewrite fmap_cons, !filter_cons; simpl.
  destruct (decide (col_todo_id r ≠ k)); by rewrite IH.
Qed.

Lemma select_all_after_insert c b d :
  NoDup (rowids (todos d)) →
  select_all_order_by_todo_id (insert_into_todos c b d).2
  = select_all_order_by_todo_id d ++ [mkRow (new_rowid d) c b].
Proof.
  intros Hnd. unfold select_all_order_by_todo_id; simpl.
  apply (sorted_rows_unique (todos d ++ [mkRow (new_rowid d) c b])).
  - unfold rowids. rewrite fmap_app. apply NoDup_app. split_and!.
    + done.
    + intros j Hj ->%list_elem_of_singleton. by apply (new_rowid_fresh d).
    + apply NoDup_singleton.
  - apply merge_sort_Permutation.
  - by rewrite merge_sort_Permutation.
  - apply StronglySorted_merge_sort; apply _.
  - apply StronglySorted_app. split_and!.
    + intros x1 x2 Hx1 ->%list_elem_of_singleton. unfold rowid_le; simpl.
      rewrite merge_sort_Permutation in Hx1.
      apply new_rowid_above_rows in Hx1. lia.
    + apply StronglySorted_merge_sort; apply _.
    + repeat constructor.
Qed.

Lemma select_all_after_delete k d :
  NoDup (rowids (todos d)) →
  select_all_order_by_todo_id (delete_from_todos k d).2
  = filter (λ r, col_todo_id r ≠ k) (select_all_order_by_todo_id d).
Proof.
  intros Hnd. unfold select_all_order_by_todo_id; simpl.
  apply (sorted_rows_unique (filter (λ r, col_todo_id r ≠ k) (todos d))).
  - change (NoDup (rowids (todos (delete_from_todos k d).2))).
    rewrite rowids_delete. by apply NoDup_filter.
  - apply merge_sort_Permutation.
  - by rewrite merge_sort_Permutation.
  - apply StronglySorted_merge_sort; apply _.
  - apply StronglySorted_filter, StronglySorted_merge_sort; apply _.
Qed.

Lemma delete_absent k d :
  k ∉ rowids (todos d) → filter (λ r, col_todo_id r ≠ k) (todos d) = todos d.
Proof.
  unfold rowids. induction (todos d) as [|r rows IH]; [done|].
  rewrite fmap_cons, not_elem_of_cons. intros [Hne Hk].
  rewrite filter_cons, decide_True by done. by rewrite IH.
Qed.

Lemma todos_after_delete k w :
  todos (file (serve (DELETE_todo k) no_faults w).2)
  = filter (λ r, col_todo_id r ≠ k) (todos (file w)).
Proof.
  unfold serve, via. rewrite delete_todo_run. case_decide as Hcount; [|done].
  apply rowcount_zero in Hcount. simpl. by rewrite delete_absent.
Qed.
End listing.

(** X10: in a table with distinct ids, GET /todos after a successful POST
    answers the list it answered before with the created record appended
    at its end. *)
Theorem list_after_create (c : string) (b : option bool) (w : world) :
  NoDup (rowids (todos (file w))) →
  c ≠ "" →
  ∃ l t w',
    (serve GET_todos no_faults w).1 = mkResponse HTTP_200_OK (JsonTodos l) ∧
    serve (POST_todos (mkBody (Some c) b)) no_faults w
      = (mkResponse HTTP_201_CREATED (JsonTodo t), w') ∧
    (serve GET_todos no_faults w').1
      = mkResponse HTTP_200_OK (JsonTodos (l ++ [t])).
Proof.
  intros Hnd Hc.
  exists (row_to_todo <$> select_all_order_by_todo_id (file w)),
    (mkTodo (new_rowid (file w)) c (default false b)),
    (committed (insert_into_todos c (Z.b2z (default false b)) (file w)).2 w).
  unfold serve, via.
  rewrite validate_TodoCreate_ok, create_todo_run, !get_all_todos_run by done.
  split_and!; [done..|].
  cbn [fst file committed create_content create_completed].
  rewrite select_all_after_insert, fmap_app by done.
  do 2 f_equal. simpl. unfold row_to_todo; simpl. by rewrite b2z_truth.
Qed.

Lemma list_after_create_witness :
  NoDup (rowids (todos (file two_todos))) ∧
  "call mum" ≠ "" ∧
  ∃ l t w',
    (serve GET_todos no_faults two_todos).1
      = mkResponse HTTP_200_OK (JsonTodos l) ∧
    serve (POST_todos (mkBody (Some "call mum") None)) no_faults two_todos
      = (mkResponse HTTP_201_CREATED (JsonTodo t), w') ∧
    (serve GET_todos no_faults w').1
      = mkResponse HTTP_200_OK (JsonTodos (l ++ [t])).
Proof.
  assert ("call mum" ≠ "") as Hc by discriminate.
  split_and!; [apply two_todos_distinct|done|].
  apply (list_after_create "call mum" None two_todos two_todos_distinct Hc).
Defined.

(** X11: in a table with distinct ids, GET /todos after DELETE /todos/{k}
    answers the list it answered before without the record of id [k], in
    the same order; for an id that is not in the table that is the same
    list. *)
Theorem list_after_delete (k : Z) (w : world) :
  NoDup (rowids (todos (file w))) →
  ∃ l,
    (serve GET_todos no_faults w).1 = mkResponse HTTP_200_OK (JsonTodos l) ∧
    (serve GET_todos no_faults (serve (DELETE_todo k) no_faults w).2).1
      = mkResponse HTTP_200_OK (JsonTodos (filter (λ t, todo_id t ≠ k) l)).
Proof.
  intros Hnd. exists (row_to_todo <$> select_all_order_by_todo_id (file w)).
  split; [by unfold serve, via; rewrite get_all_todos_run|].
  unfold serve at 1, via at 1. rewrite get_all_todos_run. cbn [fst].
  do 2 f_equal. rewrite filter_fmap_todo. f_equal.
  rewrite <- select_all_after_delete by done.
  unfold select_all_order_by_todo_id. by rewrite todos_after_delete.
Qed.

Lemma list_after_delete_witness :
  NoDup (rowids (todos (file two_todos))) ∧
  (serve GET_todos no_faults (serve (DELETE_todo 1) no_faults two_todos).2).1
  = mkResponse 200 (JsonTodos [mkTodo 2 "walk the dog" true]).
Proof.
  split; [apply two_todos_distinct|].
  destruct (list_after_delete 1 two_todos two_todos_distinct) as (l & Hl & ->).
  injection Hl as <-. reflexivity.
Defined.

(** X12: in a table with distinct ids the list and the single records
    agree: a record is in the list that GET /todos answers exactly when GET
    /todos/{id} with its id answers 200 with that record. *)
Theorem list_get_agree (w : world) :
  NoDup (rowids (todos (file w))) →
  ∃ l,
    (serve GET_todos no_faults w).1 = mkResponse HTTP_200_OK (JsonTodos l) ∧
    ∀ t, t ∈ l ↔
         (serve (GET_todo (todo_id t)) no_faults w).1
         = mkResponse HTTP_200_OK (JsonTodo t).
Proof.
  intros Hnd. eexists. split; [by unfold serve, via; rewrite get_all_todos_run|].
  intros t. unfold select_all_order_by_todo_id.
  rewrite merge_sort_Permutation, list_elem_of_fmap. split.
  - intros (r & -> & Hr). unfold serve, via.
    rewrite get_todo_run. change (todo_id (row_to_todo r)) with (col_todo_id r).
    by rewrite select_unique.
  - intros (r & _ & -> & Hr & _)%get_response_found. by exists r.
Qed.

Lemma list_get_agree_witness :
  NoDup (rowids (todos (file two_todos))) ∧
  ∃ l,
    (serve GET_todos no_faults two_todos).1
      = mkResponse HTTP_200_OK (JsonTodos l) ∧
    ∀ t, t ∈ l ↔
         (serve (GET_todo (todo_id t)) no_faults two_todos).1
         = mkResponse HTTP_200_OK (JsonTodo t).
Proof.
  split; [apply two_todos_distinct|].
  apply (list_get_agree two_todos two_todos_distinct).
Defined.

(** ** Ids and flags over runs, continued *)

Section runs_continued.
Implicit Types (w : world) (d : database) (k : Z) (r : Row).

Lemma max_rowid_le rows s :
  0 ≤ s → Forall (λ r, col_todo_id r ≤ s) rows → max_rowid rows ≤ s.
Proof.
  intros Hs. unfold max_rowid, rowids.
  induction 1 as [|r rows Hr _ IH]; [done|]. rewrite fmap_cons; simpl. lia.
Qed.

Lemma new_rowid_next d :
  well_formed d → 0 ≤ sqlite_sequence d → new_rowid d = sqlite_sequence d + 1.
Proof.
  intros [_ Hrows] Hs. unfold new_rowid.
  assert (max_rowid (todos d) ≤ sqlite_sequence d); [|lia].
  apply max_rowid_le; [done|]. eapply Forall_impl; [done|]. simpl. lia.
Qed.

Lemma transition_created d o d' :
  transition d o d' →
  sqlite_sequence d' = default (sqlite_sequence d) o ∧
  (∀ n, o = Some n → n = new_rowid d).
Proof. destruct 1; simpl; split; congruence. Qed.

Lemma serve_all_consecutive reqs w :
  well_formed (file w) → 0 ≤ sqlite_sequence (file w) →
  created_ids (serve_all reqs w).1
  = seqZ (sqlite_sequence (file w) + 1)
         (Z.of_nat (length (created_ids (serve_all reqs w).1))) ∧
  sqlite_sequence (file (serve_all reqs w).2)
  = sqlite_sequence (file w)
    + Z.of_nat (length (created_ids (serve_all reqs w).1)).
Proof.
  revert w. induction reqs as [|[req fl] reqs IH]; intros w Hwf Hs.
  - simpl. split; [done|lia].
  - rewrite serve_all_cons. cbn [fst snd]. rewrite created_ids_cons.
    pose proof (serve_transition req fl w) as Ht.
    pose proof (transition_well_formed _ _ _ Ht Hwf) as Hwf'.
    destruct (transition_created _ _ _ Ht) as [Hseq Hnew].
    destruct (created_id (serve req fl w).1) as [n|]; simpl in *.
    + rewrite (Hnew n eq_refl), new_rowid_next in Hseq by done.
      rewrite (Hnew n eq_refl), new_rowid_next by done.
      destruct (IH (serve req fl w).2 Hwf') as [Hids Hlast]; [lia|].
      rewrite Hseq in Hids, Hlast. split.
      * rewrite (seqZ_cons _ (Z.of_nat (S _))) by lia. f_equal.
        rewrite Hids at 1. f_equal; lia.
      * lia.
    + rewrite <- Hseq. apply IH; [done|lia].
Qed.

Lemma assigned_flag r u :
  col_completed r = 0 ∨ col_completed r = 1 →
  col_completed (foldl assign r (set_clauses u)) = 0 ∨
  col_completed (foldl assign r (set_clauses u)) = 1.
Proof.
  unfold set_clauses.
  destruct (update_content u), (update_completed u) as [[]|]; simpl; auto.
Qed.

Lemma serve_flags req fl w :
  Forall (λ r, col_completed r = 0 ∨ col_completed r = 1) (todos (file w)) →
  Forall (λ r, col_completed r = 0 ∨ col_completed r = 1)
         (todos (file (serve req fl w).2)).
Proof.
  intros Hrows. destruct (serve_faults req fl w) as [-> | ->]; [|done].
  destruct req as [|k|b|k b|k]; unfold serve, via.
  - by rewrite get_all_todos_run.
  - rewrite get_todo_run. by destruct (fetchone _).
  - destruct (validate_TodoCreate b) as [e|todo]; [done|].
    rewrite create_todo_run; simpl. apply Forall_app. split; [done|].
    apply Forall_singleton; simpl. destruct (create_completed todo); auto.
  - destruct (validate_TodoUpdate b) as [e|u]; [done|].
    destruct (fetchone (select_where_todo_id k (file w))) as [r|] eqn:Hr.
    + rewrite (update_todo_found _ _ _ r) by done; simpl.
      apply Forall_fmap. eapply Forall_impl; [done|]. intros x Hx; simpl.
      case_decide; [|done]. by apply assigned_flag.
    + by rewrite update_todo_missing.
  - rewrite delete_todo_run. case_decide; [done|]. simpl.
    apply Forall_forall. intros r [_ Hr]%list_elem_of_filter.
    by apply (proj1 (Forall_forall _ _) Hrows).
Qed.

Lemma serve_all_flags reqs w :
  Forall (λ r, col_completed r = 0 ∨ col_completed r = 1) (todos (file w)) →
  Forall (λ r, col_completed r = 0 ∨ col_completed r = 1)
         (todos (file (serve_all reqs w).2)).
Proof.
  revert w. induction reqs as [|[req fl] reqs IH]; intros w Hrows; [done|].
  rewrite serve_all_cons. cbn [snd]. by apply IH, serve_flags.
Qed.
End runs_continued.

(** X13: ids are handed out consecutively from 1: after any run of requests
    from startup, whatever the deletes, the failed requests and the faults,
    the ids that the responses report as created are 1, 2, ..., n in that
    order, and the sequence entry of the file is n. *)
Theorem created_ids_consecutive (reqs : list (request * faults)) :
  created_ids (serve_all reqs startup).1
  = seqZ 1 (Z.of_nat (length (created_ids (serve_all reqs startup).1))) ∧
  sqlite_sequence (file (serve_all reqs startup).2)
  = Z.of_nat (length (created_ids (serve_all reqs startup).1)).
Proof.
  destruct (serve_all_consecutive reqs startup startup_well_formed) as [Hids Hs].
  - done.
  - split; [done|]. by rewrite Hs.
Qed.

(** X14: after any run of requests from startup the [completed] column
    holds only 0 and 1, so [row_to_todo] loses nothing: every row of the
    table is the row of its record, with [completed] written back as an
    integer. *)
Theorem stored_rows_round_trip (reqs : list (request * faults)) :
  Forall (λ r, col_completed r = 0 ∨ col_completed r = 1)
         (todos (file (serve_all reqs startup).2)) ∧
  Forall (λ r, mkRow (todo_id (row_to_todo r)) (content (row_to_todo r))
                     (Z.b2z (completed (row_to_todo r))) = r)
         (todos (file (serve_all reqs startup).2)).
Proof.
  assert (Forall (λ r, col_completed r = 0 ∨ col_completed r = 1)
                 (todos (file (serve_all reqs startup).2))) as Hflags.
  { apply serve_all_flags. constructor. }
  split; [done|]. eapply Forall_impl; [done|].
  intros [k c b] [Hb|Hb]; simpl in *; by subst.
Qed.
